(** * warmachine-ng: the Slack real-time connector

    A shallow embedding of [warmachine/connections/slack.py] (class
    [SlackWS]) and the properties of its cache handlers, router, sender,
    reconnect loop and heartbeat.

    Modelling conventions.
    - A decoded JSON value is a [json]; JSON numbers are taken as integers
      (fractional and non-finite numbers are outside the model). The lag is
      a [number]: the integer [0] at first, a float after a pong.
    - The dictionaries of the connector ([user_map], [user_nick_to_id], ...)
      are finite maps over the hashable values ([key]); a JSON object is an
      association list in decoding order.
    - The bootstrap stores in [user_map] the entries of the payload that
      [self._info] holds: Python has one object for both, and the presence
      handler changes that object in place. The world records which
      records of [user_map] are entries of the payload, and where
      ([in_info]); an in-place change goes to both. A record stored by the
      user-change handler is the object of the event, which the connector
      holds nowhere else. The records of [channel_map] are shared with the
      payload in the same way, but no method changes one.
    - A method is a computation [M A]: a function from the world to an
      outcome and the world it leaves, also when it raises.
    - The outside world (HTTP exchanges, the websocket, the clock) answers
      from scripts carried by the world; what the connector does to the
      outside (log records, requests, frames, timers) is appended to a trace. *)

From Stdlib Require Import ZArith Lia Ascii String.
From stdpp Require Import base gmap strings list pretty sorting.

Local Set Warnings "-register-all".
Local Open Scope Z_scope.

(** ** Decoded JSON values and the Python operations used on them *)

Inductive json :=
| JNull
| JBool (b : bool)
| JNum (n : Z)
| JStr (s : string)
| JArr (l : list json)
| JObj (o : list (string * json)).

(** Python truth value of a decoded value. *)
Definition truthy (v : json) : bool :=
  match v with
  | JNull => false
  | JBool b => b
  | JNum n => negb (n =? 0)
  | JStr s => match s with EmptyString => false | String _ _ => true end
  | JArr l => match l with [] => false | _ :: _ => true end
  | JObj o => match o with [] => false | _ :: _ => true end
  end.

(** [o.get(k)] on the fields of an object. *)
Fixpoint obj_get (k : string) (o : list (string * json)) : option json :=
  match o with
  | [] => None
  | (k', v) :: o' => if decide (k' = k) then Some v else obj_get k o'
  end.

(** [o[k] = v] on the fields of an object: an existing field keeps its
    place, a new one goes last. *)
Fixpoint obj_set (k : string) (v : json) (o : list (string * json))
  : list (string * json) :=
  match o with
  | [] => [(k, v)]
  | (k', v') :: o' =>
      if decide (k' = k) then (k', v) :: o' else (k', v') :: obj_set k v o'
  end.

(** Lookup in a table keyed by name. *)
Fixpoint assoc {A} (k : string) (l : list (string * A)) : option A :=
  match l with
  | [] => None
  | (k', v) :: l' => if decide (k' = k) then Some v else assoc k l'
  end.

(** Python [==] on decoded values ([True == 1], lists by position, dicts
    by field). *)
Fixpoint py_eqb (a b : json) {struct a} : bool :=
  match a, b with
  | JNull, JNull => true
  | JBool x, JBool y => bool_decide (x = y)
  | JBool x, JNum n | JNum n, JBool x => bool_decide (Z.b2z x = n)
  | JNum x, JNum y => bool_decide (x = y)
  | JStr x, JStr y => bool_decide (x = y)
  | JArr x, JArr y =>
      (fix go (x y : list json) {struct x} : bool :=
         match x, y with
         | [], [] => true
         | a :: x', b :: y' => py_eqb a b && go x' y'
         | _, _ => false
         end) x y
  | JObj x, JObj y =>
      bool_decide (length x = length y) &&
      (fix go (x : list (string * json)) : bool :=
         match x with
         | [] => true
         | (k, v) :: x' =>
             match obj_get k y with
             | Some w => py_eqb v w && go x'
             | None => false
             end
         end) x
  | _, _ => false
  end.

(** The hashable values, as dictionary keys: [True] and [1] are one key. *)
Inductive key := KNull | KNum (n : Z) | KStr (s : string).

#[global] Instance key_eq_dec : EqDecision key.
Proof. solve_decision. Defined.

#[global] Instance key_countable : Countable key.
Proof.
  refine (inj_countable'
    (fun k => match k with
              | KNull => inl () | KNum n => inr (inl n) | KStr s => inr (inr s)
              end)
    (fun x => match x with
              | inl _ => KNull | inr (inl n) => KNum n | inr (inr s) => KStr s
              end) _).
  by intros [].
Defined.

Definition to_key (v : json) : option key :=
  match v with
  | JNull => Some KNull
  | JBool b => Some (KNum (Z.b2z b))
  | JNum n => Some (KNum n)
  | JStr s => Some (KStr s)
  | JArr _ | JObj _ => None
  end.

(** Strings: [s.startswith(p)], [c in s], [s.replace(c, '')] and
    [s.split(' ')]. *)
Definition startswith (p s : string) : bool := String.prefix p s.

Definition is_substring (p s : string) : bool :=
  match String.index 0 p s with Some _ => true | None => false end.

Arguments startswith : simpl never.
Arguments is_substring : simpl never.

Fixpoint remove_char (c : ascii) (s : string) : string :=
  match s with
  | EmptyString => EmptyString
  | String a s' =>
      if decide (a = c) then remove_char c s' else String a (remove_char c s')
  end.

Fixpoint split_on (c : ascii) (cur : string) (s : string) : list string :=
  match s with
  | EmptyString => [cur]
  | String a s' =>
      if decide (a = c) then cur :: split_on c EmptyString s'
      else split_on c (cur +:+ String a EmptyString) s'
  end.

Definition hash_mark : ascii := Ascii.ascii_of_nat 35.
Definition dquote : string := String (Ascii.ascii_of_nat 34) EmptyString.
Definition space : ascii := Ascii.ascii_of_nat 32.

Fixpoint chars (s : string) : list json :=
  match s with
  | EmptyString => []
  | String a s' => JStr (String a EmptyString) :: chars s'
  end.

(** ** Exceptions, outcomes, the trace and the scripted outside world *)

Inductive exn :=
| KeyError (k : json)
| TypeError
| AttributeError (attr : string)
| Exception_ (message : string)
| ConnectionClosed
| ExternalError (name : string).

Inductive outcome (A : Type) :=
| Ret (a : A)
| Raise (e : exn)
| Pending.
Arguments Ret {A} a.
Arguments Raise {A} e.
Arguments Pending {A}.

Inductive answer (A : Type) :=
| Ok (a : A)
| Fail (e : exn).
Arguments Ok {A} a.
Arguments Fail {A} e.

Inductive level := DEBUG | INFO | ERROR.

Inductive event :=
| Log (lvl : level) (template : string) (args : list json)
| HttpGet (endpoint : string) (params : list (string * json))
| WsOpen (url : json)
| WsRecv
| WsSend (frame : json)
| Sleep (seconds : Z)
| EnsureFuture (coroutine : string)
| CallLater (delay : Z) (callback : string)
| CallBase (attr : string) (arg : json).

Record env := {
  https : list (answer json);
  opens : list (answer nat);
  recvs : list (answer json);
  sends : list (answer unit);
  clock : list Z
}.

(** The connection states of [connections/base.py]. *)
Inductive conn_state := INITALIZED | CONNECTED | CONNECTING.

(** A number of Python: [self.lag_in_ms] starts as the integer [0] and is a
    float after every pong ([time.time() * 1000 - msg['time']], line 367).
    The clock of the model reads whole seconds, so the floats that arise
    are whole; a float is kept as its value. *)
Inductive number :=
| PyInt (n : Z)
| PyFloat (x : Z).

(** The attributes of the connector, the outside world and the trace.
    [in_info] is not an attribute: Python holds one object for a record of
    [user_map] and the entry of [self._info['users']] it was taken from
    (line 202), and [in_info] has the position of that entry for every
    such record, so that a change made to the record in place (line 289)
    is made to the payload as well. *)
Record world := {
  token : string;
  host : json;
  _info : json;
  reconnect_url : string;
  channel_map : gmap key json;
  channel_name_to_id : gmap key json;
  user_map : gmap key json;
  user_nick_to_id : gmap key json;
  nick : json;
  my_id : json;
  ws : option nat;
  _internal_msgid : Z;
  _internal_pingid : Z;
  lag_in_ms : number;
  status : conn_state;
  STATUS : option conn_state;
  dm_memo : gmap key json;
  in_info : gmap key nat;
  outside : env;
  trace : list event
}.

(** [SlackWS.__init__]. *)
Definition init (tok : string) (e : env) : world :=
  {| token := tok; host := JNull; _info := JNull; reconnect_url := "";
     channel_map := ∅; channel_name_to_id := ∅;
     user_map := ∅; user_nick_to_id := ∅;
     nick := JStr ""; my_id := JStr "000"; ws := None;
     _internal_msgid := 0; _internal_pingid := 0; lag_in_ms := PyInt 0;
     status := INITALIZED; STATUS := None; dm_memo := ∅; in_info := ∅;
     outside := e; trace := [] |}.

(** Assignment to one attribute of the connector. *)
Definition set_host (x : json) (w : world) : world :=
  {| token := token w; host := x; _info := _info w; reconnect_url :=
     reconnect_url w; channel_map := channel_map w; channel_name_to_id :=
     channel_name_to_id w; user_map := user_map w; user_nick_to_id :=
     user_nick_to_id w; nick := nick w; my_id := my_id w; ws := ws w;
     _internal_msgid := _internal_msgid w; _internal_pingid :=
     _internal_pingid w; lag_in_ms := lag_in_ms w; status := status w;
     STATUS := STATUS w; dm_memo := dm_memo w; in_info := in_info w; outside
     := outside w; trace := trace w |}.

(** [self._info = x], [x] a payload just decoded: no record of [user_map]
    is an entry of it. *)
Definition set_info (x : json) (w : world) : world :=
  {| token := token w; host := host w; _info := x; reconnect_url :=
     reconnect_url w; channel_map := channel_map w; channel_name_to_id :=
     channel_name_to_id w; user_map := user_map w; user_nick_to_id :=
     user_nick_to_id w; nick := nick w; my_id := my_id w; ws := ws w;
     _internal_msgid := _internal_msgid w; _internal_pingid :=
     _internal_pingid w; lag_in_ms := lag_in_ms w; status := status w;
     STATUS := STATUS w; dm_memo := dm_memo w; in_info := ∅; outside :=
     outside w; trace := trace w |}.

(** A change made in place to the payload that [self._info] holds. *)
Definition update_info (x : json) (w : world) : world :=
  {| token := token w; host := host w; _info := x; reconnect_url :=
     reconnect_url w; channel_map := channel_map w; channel_name_to_id :=
     channel_name_to_id w; user_map := user_map w; user_nick_to_id :=
     user_nick_to_id w; nick := nick w; my_id := my_id w; ws := ws w;
     _internal_msgid := _internal_msgid w; _internal_pingid :=
     _internal_pingid w; lag_in_ms := lag_in_ms w; status := status w;
     STATUS := STATUS w; dm_memo := dm_memo w; in_info := in_info w; outside
     := outside w; trace := trace w |}.

Definition set_channel_map (x : gmap key json) (w : world) : world :=
  {| token := token w; host := host w; _info := _info w; reconnect_url :=
     reconnect_url w; channel_map := x; channel_name_to_id :=
     channel_name_to_id w; user_map := user_map w; user_nick_to_id :=
     user_nick_to_id w; nick := nick w; my_id := my_id w; ws := ws w;
     _internal_msgid := _internal_msgid w; _internal_pingid :=
     _internal_pingid w; lag_in_ms := lag_in_ms w; status := status w;
     STATUS := STATUS w; dm_memo := dm_memo w; in_info := in_info w; outside
     := outside w; trace := trace w |}.

Definition set_channel_name_to_id (x : gmap key json) (w : world) : world :=
  {| token := token w; host := host w; _info := _info w; reconnect_url :=
     reconnect_url w; channel_map := channel_map w; channel_name_to_id := x;
     user_map := user_map w; user_nick_to_id := user_nick_to_id w; nick :=
     nick w; my_id := my_id w; ws := ws w; _internal_msgid :=
     _internal_msgid w; _internal_pingid := _internal_pingid w; lag_in_ms :=
     lag_in_ms w; status := status w; STATUS := STATUS w; dm_memo := dm_memo
     w; in_info := in_info w; outside := outside w; trace := trace w |}.

Definition set_user_map (x : gmap key json) (w : world) : world :=
  {| token := token w; host := host w; _info := _info w; reconnect_url :=
     reconnect_url w; channel_map := channel_map w; channel_name_to_id :=
     channel_name_to_id w; user_map := x; user_nick_to_id := user_nick_to_id
     w; nick := nick w; my_id := my_id w; ws := ws w; _internal_msgid :=
     _internal_msgid w; _internal_pingid := _internal_pingid w; lag_in_ms :=
     lag_in_ms w; status := status w; STATUS := STATUS w; dm_memo := dm_memo
     w; in_info := in_info w; outside := outside w; trace := trace w |}.

Definition set_user_nick_to_id (x : gmap key json) (w : world) : world :=
  {| token := token w; host := host w; _info := _info w; reconnect_url :=
     reconnect_url w; channel_map := channel_map w; channel_name_to_id :=
     channel_name_to_id w; user_map := user_map w; user_nick_to_id := x;
     nick := nick w; my_id := my_id w; ws := ws w; _internal_msgid :=
     _internal_msgid w; _internal_pingid := _internal_pingid w; lag_in_ms :=
     lag_in_ms w; status := status w; STATUS := STATUS w; dm_memo := dm_memo
     w; in_info := in_info w; outside := outside w; trace := trace w |}.

Definition set_nick (x : json) (w : world) : world :=
  {| token := token w; host := host w; _info := _info w; reconnect_url :=
     reconnect_url w; channel_map := channel_map w; channel_name_to_id :=
     channel_name_to_id w; user_map := user_map w; user_nick_to_id :=
     user_nick_to_id w; nick := x; my_id := my_id w; ws := ws w;
     _internal_msgid := _internal_msgid w; _internal_pingid :=
     _internal_pingid w; lag_in_ms := lag_in_ms w; status := status w;
     STATUS := STATUS w; dm_memo := dm_memo w; in_info := in_info w; outside
     := outside w; trace := trace w |}.

Definition set_my_id (x : json) (w : world) : world :=
  {| token := token w; host := host w; _info := _info w; reconnect_url :=
     reconnect_url w; channel_map := channel_map w; channel_name_to_id :=
     channel_name_to_id w; user_map := user_map w; user_nick_to_id :=
     user_nick_to_id w; nick := nick w; my_id := x; ws := ws w;
     _internal_msgid := _internal_msgid w; _internal_pingid :=
     _internal_pingid w; lag_in_ms := lag_in_ms w; status := status w;
     STATUS := STATUS w; dm_memo := dm_memo w; in_info := in_info w; outside
     := outside w; trace := trace w |}.

Definition set_ws (x : option nat) (w : world) : world :=
  {| token := token w; host := host w; _info := _info w; reconnect_url :=
     reconnect_url w; channel_map := channel_map w; channel_name_to_id :=
     channel_name_to_id w; user_map := user_map w; user_nick_to_id :=
     user_nick_to_id w; nick := nick w; my_id := my_id w; ws := x;
     _internal_msgid := _internal_msgid w; _internal_pingid :=
     _internal_pingid w; lag_in_ms := lag_in_ms w; status := status w;
     STATUS := STATUS w; dm_memo := dm_memo w; in_info := in_info w; outside
     := outside w; trace := trace w |}.

Definition set_internal_msgid (x : Z) (w : world) : world :=
  {| token := token w; host := host w; _info := _info w; reconnect_url :=
     reconnect_url w; channel_map := channel_map w; channel_name_to_id :=
     channel_name_to_id w; user_map := user_map w; user_nick_to_id :=
     user_nick_to_id w; nick := nick w; my_id := my_id w; ws := ws w;
     _internal_msgid := x; _internal_pingid := _internal_pingid w; lag_in_ms
     := lag_in_ms w; status := status w; STATUS := STATUS w; dm_memo :=
     dm_memo w; in_info := in_info w; outside := outside w; trace := trace w
     |}.

Definition set_internal_pingid (x : Z) (w : world) : world :=
  {| token := token w; host := host w; _info := _info w; reconnect_url :=
     reconnect_url w; channel_map := channel_map w; channel_name_to_id :=
     channel_name_to_id w; user_map := user_map w; user_nick_to_id :=
     user_nick_to_id w; nick := nick w; my_id := my_id w; ws := ws w;
     _internal_msgid := _internal_msgid w; _internal_pingid := x; lag_in_ms
     := lag_in_ms w; status := status w; STATUS := STATUS w; dm_memo :=
     dm_memo w; in_info := in_info w; outside := outside w; trace := trace w
     |}.

Definition set_lag_in_ms (x : number) (w : world) : world :=
  {| token := token w; host := host w; _info := _info w; reconnect_url :=
     reconnect_url w; channel_map := channel_map w; channel_name_to_id :=
     channel_name_to_id w; user_map := user_map w; user_nick_to_id :=
     user_nick_to_id w; nick := nick w; my_id := my_id w; ws := ws w;
     _internal_msgid := _internal_msgid w; _internal_pingid :=
     _internal_pingid w; lag_in_ms := x; status := status w; STATUS :=
     STATUS w; dm_memo := dm_memo w; in_info := in_info w; outside :=
     outside w; trace := trace w |}.

Definition set_STATUS (x : option conn_state) (w : world) : world :=
  {| token := token w; host := host w; _info := _info w; reconnect_url :=
     reconnect_url w; channel_map := channel_map w; channel_name_to_id :=
     channel_name_to_id w; user_map := user_map w; user_nick_to_id :=
     user_nick_to_id w; nick := nick w; my_id := my_id w; ws := ws w;
     _internal_msgid := _internal_msgid w; _internal_pingid :=
     _internal_pingid w; lag_in_ms := lag_in_ms w; status := status w;
     STATUS := x; dm_memo := dm_memo w; in_info := in_info w; outside :=
     outside w; trace := trace w |}.

Definition set_dm_memo (x : gmap key json) (w : world) : world :=
  {| token := token w; host := host w; _info := _info w; reconnect_url :=
     reconnect_url w; channel_map := channel_map w; channel_name_to_id :=
     channel_name_to_id w; user_map := user_map w; user_nick_to_id :=
     user_nick_to_id w; nick := nick w; my_id := my_id w; ws := ws w;
     _internal_msgid := _internal_msgid w; _internal_pingid :=
     _internal_pingid w; lag_in_ms := lag_in_ms w; status := status w;
     STATUS := STATUS w; dm_memo := x; in_info := in_info w; outside :=
     outside w; trace := trace w |}.

Definition set_in_info (x : gmap key nat) (w : world) : world :=
  {| token := token w; host := host w; _info := _info w; reconnect_url :=
     reconnect_url w; channel_map := channel_map w; channel_name_to_id :=
     channel_name_to_id w; user_map := user_map w; user_nick_to_id :=
     user_nick_to_id w; nick := nick w; my_id := my_id w; ws := ws w;
     _internal_msgid := _internal_msgid w; _internal_pingid :=
     _internal_pingid w; lag_in_ms := lag_in_ms w; status := status w;
     STATUS := STATUS w; dm_memo := dm_memo w; in_info := x; outside :=
     outside w; trace := trace w |}.

Definition set_outside (x : env) (w : world) : world :=
  {| token := token w; host := host w; _info := _info w; reconnect_url :=
     reconnect_url w; channel_map := channel_map w; channel_name_to_id :=
     channel_name_to_id w; user_map := user_map w; user_nick_to_id :=
     user_nick_to_id w; nick := nick w; my_id := my_id w; ws := ws w;
     _internal_msgid := _internal_msgid w; _internal_pingid :=
     _internal_pingid w; lag_in_ms := lag_in_ms w; status := status w;
     STATUS := STATUS w; dm_memo := dm_memo w; in_info := in_info w; outside
     := x; trace := trace w |}.

Definition set_trace (x : list event) (w : world) : world :=
  {| token := token w; host := host w; _info := _info w; reconnect_url :=
     reconnect_url w; channel_map := channel_map w; channel_name_to_id :=
     channel_name_to_id w; user_map := user_map w; user_nick_to_id :=
     user_nick_to_id w; nick := nick w; my_id := my_id w; ws := ws w;
     _internal_msgid := _internal_msgid w; _internal_pingid :=
     _internal_pingid w; lag_in_ms := lag_in_ms w; status := status w;
     STATUS := STATUS w; dm_memo := dm_memo w; in_info := in_info w; outside
     := outside w; trace := x |}.

(** ** Computations: state, exceptions and the scripted outside world *)

Definition M (A : Type) : Type := world → outcome A * world.

#[global] Instance M_ret : MRet M := λ A a w, (Ret a, w).

#[global] Instance M_bind : MBind M := λ A B f m w,
  match m w with
  | (Ret a, w') => f a w'
  | (Raise e, w') => (Raise e, w')
  | (Pending, w') => (Pending, w')
  end.

Definition raise {A} (e : exn) : M A := λ w, (Raise e, w).

Definition gets {A} (f : world → A) : M A := λ w, (Ret (f w), w).

Definition modify (f : world → world) : M unit := λ w, (Ret (), f w).

(** [try: m  except <handles>: h]. An exhausted script is no exception. *)
Definition try_except {A} (m : M A) (handles : exn → bool) (h : M A) : M A :=
  λ w,
  match m w with
  | (Raise e, w') => if handles e then h w' else (Raise e, w')
  | r => r
  end.

Definition is_KeyError (e : exn) : bool :=
  match e with KeyError _ => true | _ => false end.

Definition is_ConnectionClosed (e : exn) : bool :=
  match e with ConnectionClosed => true | _ => false end.

Definition is_Exception (e : exn) : bool := true.

Definition of_option {A} (o : option A) (e : exn) : M A :=
  match o with Some a => mret a | None => raise e end.

Fixpoint for_each {A} (l : list A) (body : A → M unit) : M unit :=
  match l with
  | [] => mret ()
  | a :: l' => body a;; for_each l' body
  end.

Definition emit (e : event) : M unit :=
  modify (λ w, set_trace (trace w ++ [e]) w).

Definition log (lvl : level) (template : string) (args : list json) : M unit :=
  emit (Log lvl template args).

(** [v[k]], [k in v], [v.get(k, d)], [v[k] = x], [for _ in v] and
    [v.startswith(p)] for a string literal [k]. *)
Definition subscript (v : json) (k : string) : M json :=
  match v with
  | JObj o => of_option (obj_get k o) (KeyError (JStr k))
  | _ => raise TypeError
  end.

Definition contains (k : string) (v : json) : M bool :=
  match v with
  | JObj o => mret (bool_decide (is_Some (obj_get k o)))
  | JArr l => mret (existsb (py_eqb (JStr k)) l)
  | JStr s => mret (is_substring k s)
  | _ => raise TypeError
  end.

Definition dict_get (v : json) (k : string) (d : json) : M json :=
  match v with
  | JObj o => mret (default d (obj_get k o))
  | _ => raise (AttributeError "get")
  end.

Definition set_item (v : json) (k : string) (x : json) : M json :=
  match v with
  | JObj o => mret (JObj (obj_set k x o))
  | _ => raise TypeError
  end.

Definition iterate (v : json) : M (list json) :=
  match v with
  | JArr l => mret l
  | JObj o => mret (JStr <$> o.*1)
  | JStr s => mret (chars s)
  | _ => raise TypeError
  end.

Definition str_startswith (v : json) (p : string) : M bool :=
  match v with
  | JStr s => mret (startswith p s)
  | _ => raise (AttributeError "startswith")
  end.

(** [d[v]] on a dictionary of the connector. *)
Definition hashable (v : json) : M key := of_option (to_key v) TypeError.

Definition lookup_key (d : gmap key json) (v : json) : M json :=
  k ← hashable v; of_option (d !! k) (KeyError v).

(** The outside world: each call takes the next answer of its script. *)
Definition pop_https (e : env) : env :=
  {| https := tail (https e); opens := opens e; recvs := recvs e;
     sends := sends e; clock := clock e |}.

Definition pop_opens (e : env) : env :=
  {| https := https e; opens := tail (opens e); recvs := recvs e;
     sends := sends e; clock := clock e |}.

Definition pop_recvs (e : env) : env :=
  {| https := https e; opens := opens e; recvs := tail (recvs e);
     sends := sends e; clock := clock e |}.

Definition pop_sends (e : env) : env :=
  {| https := https e; opens := opens e; recvs := recvs e;
     sends := tail (sends e); clock := clock e |}.

Definition pop_clock (e : env) : env :=
  {| https := https e; opens := opens e; recvs := recvs e;
     sends := sends e; clock := tail (clock e) |}.

Definition answered {A} (a : answer A) : M A :=
  match a with Ok x => mret x | Fail e => raise e end.

Definition ask {A} (script : env → list (answer A)) (pop : env → env)
    (request : event) : M A :=
  λ w,
  match script (outside w) with
  | [] => (Pending, w)
  | a :: _ =>
      answered a (set_trace (trace w ++ [request]) (set_outside (pop (outside w)) w))
  end.

(** [json.loads(urllib.request.urlopen(req).read().decode('utf-8'))]. *)
Definition http_get (endpoint : string) (params : list (string * json)) : M json :=
  ask https pop_https (HttpGet endpoint params).

(** [await websockets.connect(url)]. *)
Definition ws_connect (url : json) : M nat := ask opens pop_opens (WsOpen url).

(** [json.loads(await self.ws.recv())]. *)
Definition ws_recv : M json := ask recvs pop_recvs WsRecv.

(** [await self.ws.send(s)], [s] the serialization of [frame]. *)
Definition ws_send (frame : json) : M unit := ask sends pop_sends (WsSend frame).

(** [time.time() * 1000]. *)
Definition time_ms : M Z :=
  λ w,
  match clock (outside w) with
  | [] => (Pending, w)
  | t :: _ => (Ret (t * 1000), set_outside (pop_clock (outside w)) w)
  end.

(** ** The methods of [SlackWS] *)

Section Connector.

(** What the sources leave to Python and to the base class [Connection]
    ([connections/base.py]): the attributes the base class provides, whose
    calls are recorded in the trace and change no attribute of the
    connector; [str()] of a list or a dictionary; [pprint.pformat]; and
    [str()] of a float, given by its value. *)
Context (base_has : string → bool).
Context (str_container : json → string).
Context (pformat : json → string).
Context (str_float : Z → string).

(** [str(v)], as ['{}'.format(v)] renders a value. *)
Definition py_str (v : json) : string :=
  match v with
  | JNull => "None"
  | JBool true => "True"
  | JBool false => "False"
  | JNum n => pretty n
  | JStr s => s
  | JArr _ | JObj _ => str_container v
  end.

(** [str(n)] for a number. *)
Definition str_number (n : number) : string :=
  match n with
  | PyInt n => pretty n
  | PyFloat x => str_float x
  end.

(** A call of an attribute that only the base class can provide. *)
Definition call_base (attr : string) (arg : json) : M unit :=
  if base_has attr then emit (CallBase attr arg)
  else raise (AttributeError attr).

(** The elements of a list with their positions. *)
Definition enumerate {A} (l : list A) : list (nat * A) := imap pair l.

(** [process_connect_info], lines 185-216. The records stored in
    [user_map] are the entries of the payload themselves. *)
Definition process_connect_info (info : json) : M unit :=
  if negb (truthy info) then mret () else
  try_except
    (i ← gets _info; s ← subscript i "self";
     id ← dict_get s "id" (JStr "000");
     modify (set_my_id id);;
     i ← gets _info; s ← subscript i "self";
     name ← dict_get s "name" JNull;
     modify (set_nick name))
    is_KeyError
    (log ERROR "Unable to read self section of connect info" []);;
  i ← gets _info; users ← dict_get i "users" (JArr []);
  us ← iterate users;
  for_each (enumerate us) (λ iu,
    id ← subscript iu.2 "id"; k ← hashable id;
    modify (λ w, set_in_info (<[k:=iu.1]> (in_info w))
                   (set_user_map (<[k:=iu.2]> (user_map w)) w));;
    id ← subscript iu.2 "id"; name ← subscript iu.2 "name";
    kn ← hashable name;
    modify (λ w, set_user_nick_to_id (<[kn:=id]> (user_nick_to_id w)) w));;
  i ← gets _info; ims ← dict_get i "ims" (JArr []);
  ds ← iterate ims;
  for_each ds (λ c,
    id ← subscript c "id"; k ← hashable id;
    modify (λ w, set_channel_map (<[k:=c]> (channel_map w)) w));;
  i ← gets _info; channels ← dict_get i "channels" (JArr []);
  cs ← iterate channels;
  for_each cs (λ c,
    id ← subscript c "id"; k ← hashable id;
    modify (λ w, set_channel_map (<[k:=c]> (channel_map w)) w);;
    id ← subscript c "id"; name ← subscript c "name"; kn ← hashable name;
    modify (λ w, set_channel_name_to_id (<[kn:=id]> (channel_name_to_id w)) w));;
  i ← gets _info; groups ← dict_get i "groups" (JArr []);
  gs ← iterate groups;
  for_each gs (λ g,
    id ← subscript g "id"; k ← hashable id;
    modify (λ w, set_channel_map (<[k:=g]> (channel_map w)) w);;
    id ← subscript g "id"; name ← subscript g "name"; kn ← hashable name;
    modify (λ w, set_channel_name_to_id (<[kn:=id]> (channel_name_to_id w)) w)).

(** [authenticate] from line 173 on, [info] being the decoded response. *)
Definition authenticate_with (info : json) : M json :=
  modify (set_info info);;
  i ← gets _info; ok ← dict_get i "ok" (JBool true);
  (if negb (truthy ok) then
     i ← gets _info; err ← dict_get i "error" (JStr "Unknown Error");
     raise (Exception_ ("Slack Error: " +:+ py_str err))
   else mret ());;
  i ← gets _info; process_connect_info i;;
  i ← gets _info; url ← dict_get i "url" JNull;
  log DEBUG "Got websocket url: {}" [url];;
  i ← gets _info; dict_get i "url" JNull.

(** [authenticate], lines 158-183. The request is kept as its endpoint and
    its parameters. *)
Definition authenticate : M json :=
  tok ← gets token;
  log DEBUG "Connecting to {}" [JStr "https://slack.com/api/rtm.start"; JStr tok];;
  info ← http_get "https://slack.com/api/rtm.start" [("token", JStr tok)];
  authenticate_with info.

(** [connect], lines 57-67: [True] when the session is open, [None] when
    authentication raised. *)
Definition connect : M json :=
  authenticated ← try_except
    (h ← authenticate; modify (set_host h);; mret true)
    is_Exception
    (log ERROR "Error authenticating to slack" [];; mret false);
  if authenticated : bool then
    modify (set_STATUS (Some CONNECTING));;
    h ← gets host; log INFO "Connecting to {}" [h];;
    h ← gets host; c ← ws_connect h;
    modify (set_ws (Some c));;
    mret (JBool true)
  else mret JNull.

(** [_send], lines 152-156; the frame is the value handed to [json.dumps]. *)
Definition _send (frame : json) : M unit :=
  s ← gets ws;
  match s with
  | None => raise (AttributeError "send")
  | Some _ => ws_send frame
  end.

(** [start_ping], lines 345-349. *)
Definition start_ping : M unit := emit (EnsureFuture "do_ping").

(** [do_ping], lines 351-362. *)
Definition do_ping : M unit :=
  modify (λ w, set_internal_pingid (_internal_pingid w + 1) w);;
  i ← gets _internal_pingid; now ← time_ms;
  _send (JObj [("id", JNum i); ("type", JStr "ping"); ("time", JNum now)]);;
  emit (CallLater 4 "start_ping").

(** The body of [get_dm_id_by_user], lines 292-316. *)
Definition get_dm_id_by_user_body (user_id : json) : M json :=
  tok ← gets token;
  data ← http_get "https://slack.com/api/im.open"
           [("token", JStr tok); ("user", user_id)];
  ok ← subscript data "ok";
  if negb (truthy ok) then log ERROR "{}" [data];; mret JNull
  else ch ← subscript data "channel"; subscript ch "id".

(** Modelled from the spec: the [memoize] decorator ([utils/decorators.py])
    that wraps [get_dm_id_by_user] is not among the sources. The spec (4.4)
    has the resolver "if cached, return immediately", otherwise issue the
    request and "on a backend-reported failure, log and return an absent
    result", "on success, cache and return the DM channel id"; the mapping,
    "once computed for a user, is never invalidated" (3). *)
Definition memoize (f : json → M json) (user_id : json) : M json :=
  k ← hashable user_id;
  memo ← gets dm_memo;
  match memo !! k with
  | Some c => mret c
  | None =>
      c ← f user_id;
      match c with
      | JNull => mret JNull
      | _ => modify (λ w, set_dm_memo (<[k:=c]> (dm_memo w)) w);; mret c
      end
  end.

(** [get_dm_id_by_user], line 291: the memoized resolver. *)
Definition get_dm_id_by_user : json → M json := memoize get_dm_id_by_user_body.

(** [destination.replace('#', '')]. *)
Definition str_replace_hash (v : json) : M json :=
  match v with
  | JStr s => mret (JStr (remove_char hash_mark s))
  | _ => raise (AttributeError "replace")
  end.

(** The first half of [say], lines 126-140: the channel id of the
    destination, or nothing when the message is dropped. *)
Definition say_destination (destination : json) : M (option json) :=
  is_channel ← (if truthy destination then str_startswith destination "#"
                else mret false);
  if is_channel : bool then
    name ← str_replace_hash destination;
    m ← gets channel_name_to_id; c ← lookup_key m name;
    mret (Some c)
  else
    m ← gets user_nick_to_id; _user ← lookup_key m destination;
    unflagged ← (h ← contains "#" destination;
                 if negb h then
                   um ← gets user_map; r ← lookup_key um _user;
                   b ← contains "is_bot" r; mret (negb b)
                 else mret false);
    (if unflagged : bool
     then log ERROR "is_bot property not found for user {}" [destination]
     else mret ());;
    rejected ← (h ← contains "#" destination;
                if negb h then
                  um ← gets user_map; r ← lookup_key um _user;
                  d ← subscript r "deleted";
                  if truthy d then mret true else
                  um ← gets user_map; r ← lookup_key um _user;
                  b ← subscript r "is_bot"; mret (truthy b)
                else mret false);
    if rejected : bool then mret None
    else c ← get_dm_id_by_user _user; mret (Some c).

(** The second half of [say], lines 142-150. *)
Definition say_send (message destination : json) : M json :=
  modify (λ w, set_internal_msgid (_internal_msgid w + 1) w);;
  i ← gets _internal_msgid;
  let frame := JObj [("id", JNum i); ("type", JStr "message");
                     ("channel", destination);
                     ("text", JStr (py_str message))] in
  log DEBUG "Saying {}" [frame];;
  _send frame;;
  mret JNull.

(** [say], lines 121-150. *)
Definition say (message destination : json) : M json :=
  d ← say_destination destination;
  match d with
  | None => mret JNull
  | Some channel => say_send message channel
  end.

(** [s.split(' ')[1:]]. *)
Definition str_split_tail (v : json) : M (list string) :=
  match v with
  | JStr s => mret (tail (split_on space EmptyString s))
  | _ => raise (AttributeError "split")
  end.

(** [process_message], lines 218-248: the normalized message, or [None]
    after a built-in command. *)
Definition process_message (msg : json) : M json :=
  has_text ← contains "text" msg;
  (if negb has_text
   then log ERROR ("key " +:+ dquote +:+ "text" +:+ dquote +:+
                   " not found in message: {}") [msg]
   else mret ());;
  u ← subscript msg "user"; um ← gets user_map; r ← lookup_key um u;
  user_nickname ← subscript r "name";
  c ← subscript msg "channel"; private ← str_startswith c "D";
  channel ← (if private : bool then mret JNull else
             c ← subscript msg "channel"; cm ← gets channel_map;
             r ← lookup_key cm c; name ← subscript r "name";
             mret (JStr ("#" +:+ py_str name)));
  text ← subscript msg "text";
  let retval := JObj [("sender", user_nickname); ("channel", channel);
                      ("message", text)] in
  let _sender := if truthy channel then channel else user_nickname in
  whois ← str_startswith text "!whois";
  if whois : bool then
    nicknames ← str_split_tail text;
    for_each nicknames (λ n,
      idx ← gets user_nick_to_id; id ← lookup_key idx (JStr n);
      um ← gets user_map; r ← lookup_key um id;
      say (JStr (pformat r)) _sender;; mret ());;
    mret JNull
  else
    text ← subscript msg "text"; lag ← str_startswith text "!slack-lag";
    if lag : bool then
      l ← gets lag_in_ms;
      say (JStr (str_number l +:+ "ms")) _sender;;
      mret JNull
    else mret retval.

(** [on_hello], lines 69-72. *)
Definition on_hello (msg : json) : M unit :=
  n ← gets nick; log INFO "Connected to Slack as {}" [n];;
  modify (set_STATUS (Some CONNECTED));;
  start_ping.

(** [del d[v]] on the user name index. *)
Definition del_user_nick (v : json) : M unit :=
  k ← hashable v; idx ← gets user_nick_to_id;
  match idx !! k with
  | Some _ => modify (λ w, set_user_nick_to_id (delete k (user_nick_to_id w)) w)
  | None => raise (KeyError v)
  end.

(** [on_user_change], lines 250-270. The record stored is the one of the
    event, not an entry of the payload. *)
Definition on_user_change (msg : json) : M unit :=
  user_info ← subscript msg "user";
  id ← subscript user_info "id"; k ← hashable id;
  modify (λ w, set_in_info (delete k (in_info w))
                 (set_user_map (<[k:=user_info]> (user_map w)) w));;
  old_nick ← try_except
    (id ← subscript user_info "id"; um ← gets user_map;
     r ← lookup_key um id; subscript r "nick")
    is_KeyError
    (mret JNull);
  changed ← (if truthy old_nick then
               n ← subscript user_info "nick"; mret (negb (py_eqb old_nick n))
             else mret false);
  if changed : bool then
    del_user_nick old_nick;;
    id ← subscript user_info "id"; n ← subscript user_info "nick";
    kn ← hashable n;
    modify (λ w, set_user_nick_to_id (<[kn:=id]> (user_nick_to_id w)) w)
  else mret ().

(** The payload [info] with [r] as entry [i] of its [users]. *)
Definition info_set_user (i : nat) (r : json) (info : json) : json :=
  match info with
  | JObj o =>
      match obj_get "users" o with
      | Some (JArr us) => JObj (obj_set "users" (JArr (<[i:=r]> us)) o)
      | _ => info
      end
  | _ => info
  end.

(** The record under [k] becomes [r] in place: in [user_map] and, when
    the record is an entry of the payload, in [self._info] as well. *)
Definition mutate_user (k : key) (r : json) (w : world) : world :=
  match in_info w !! k with
  | Some i =>
      update_info (info_set_user i r (_info w))
        (set_user_map (<[k:=r]> (user_map w)) w)
  | None => set_user_map (<[k:=r]> (user_map w)) w
  end.

(** [on_presence_change], lines 280-289: the assignment of line 289 is
    made to the record that [user_map] holds, in place. *)
Definition on_presence_change (msg : json) : M unit :=
  presence ← subscript msg "presence";
  u ← subscript msg "user"; k ← hashable u;
  um ← gets user_map; r ← of_option (um !! k) (KeyError u);
  r' ← set_item r "presence" presence;
  modify (mutate_user k r').

(** [on_pong], lines 364-367. *)
Definition as_number (v : json) : M Z :=
  match v with
  | JNum n => mret n
  | JBool b => mret (Z.b2z b)
  | _ => raise TypeError
  end.

Definition on_pong (msg : json) : M unit :=
  now ← time_ms; t ← subscript msg "time"; n ← as_number t;
  modify (set_lag_in_ms (PyFloat (now - n))).

(** The handlers with an empty body (lines 272-278 and 369-561);
    [on_group_join] is a coroutine function whose coroutine is never
    awaited. *)
Definition no_op (msg : json) : M unit := mret ().

(** The [on_*] attributes the class itself defines. *)
Definition own_attrs : list (string * (json → M unit)) :=
  [("on_hello", on_hello);
   ("on_user_change", on_user_change);
   ("on_reconnect_url", no_op);
   ("on_presence_change", on_presence_change);
   ("on_pong", on_pong);
   ("on_group_join", no_op);
   ("on_message_message_changed", no_op);
   ("on_reaction_added", no_op);
   ("on_user_typing", no_op);
   ("on_file_shared", no_op);
   ("on_file_public", no_op);
   ("on_channel_joined", no_op);
   ("on_message_channel_join", no_op);
   ("on_message_group_join", no_op);
   ("on_desktop_notification", no_op)].

Definition own_attr (name : string) : option (json → M unit) :=
  assoc name own_attrs.

(** [hasattr(self, name)] and [getattr(self, name)(message)] for a name
    [on_...]. *)
Definition hasattr (name : string) : bool :=
  match own_attr name with Some _ => true | None => base_has name end.

Definition call_attr (name : string) (message : json) : M unit :=
  match own_attr name with
  | Some handler => handler message
  | None => call_base name message
  end.

(** [read] after the envelope is decoded, lines 85-119. *)
Definition route (message : json) : M json :=
  ack ← (r ← contains "reply_to" message;
         if r : bool then t ← contains "type" message; mret (negb t)
         else mret false);
  if ack : bool then mret JNull else
  t ← contains "type" message;
  if negb t then
    log ERROR "Received typeless message: {}" [message];; mret JNull
  else
  plain ← (ty ← subscript message "type";
           if py_eqb ty (JStr "message")
           then s ← contains "subtype" message; mret (negb s)
           else mret false);
  if plain : bool then process_message message else
  s ← contains "subtype" message;
  msgtype ← (if s : bool then
               ty ← subscript message "type";
               st ← subscript message "subtype";
               mret (py_str ty +:+ "_" +:+ py_str st)
             else ty ← subscript message "type"; mret (py_str ty));
  let func_name := "on_" +:+ msgtype in
  if hasattr func_name then call_attr func_name message;; mret JNull
  else
    log DEBUG "{} does not exist for message: {}" [JStr func_name; message];;
    mret JNull.

(** The loop of lines 80-82; [fuel] bounds the number of attempts. *)
Fixpoint reconnect_loop (fuel : nat) : M unit :=
  match fuel with
  | O => λ w, (Pending, w)
  | S fuel' =>
      r ← connect;
      if negb (truthy r) then
        call_base "error" (JStr "Trying to reconnect...");;
        emit (Sleep 300);;
        reconnect_loop fuel'
      else mret ()
  end.

(** Every attempt takes one answer of the HTTP script, so one more than
    the answers left is fuel enough. *)
Definition reconnect : M unit :=
  λ w, reconnect_loop (S (length (https (outside w)))) w.

(** [read], lines 74-119. *)
Definition read : M json :=
  s ← gets ws;
  match s with
  | None => mret JNull
  | Some _ =>
      received ← try_except
        (message ← ws_recv; mret (Some message))
        is_ConnectionClosed
        (log ERROR "{}" [];; reconnect;; mret None);
      match received with
      | None => mret JNull
      | Some message => route message
      end
  end.

(** The names of the members of a channel, lines 339-341. *)
Fixpoint member_names (ids : list json) : M (list json) :=
  match ids with
  | [] => mret []
  | u_id :: rest =>
      um ← gets user_map; r ← lookup_key um u_id;
      name ← subscript r "name";
      names ← member_names rest;
      mret (name :: names)
  end.

(** [get_users_by_channel], lines 318-343; the request is kept as its
    endpoint and its parameters. *)
Definition get_users_by_channel (channel : json) : M json :=
  name ← str_replace_hash channel;
  m ← gets channel_name_to_id; channel ← lookup_key m name;
  g ← str_startswith channel "G";
  key ← (if g : bool then mret (Some "group") else
         c ← str_startswith channel "C";
         if c : bool then mret (Some "channel") else mret None);
  match key with
  | None => mret JNull
  | Some key =>
      tok ← gets token;
      log DEBUG "Gathering list of users for channel {} from: {}"
        [channel; JStr ("https://slack.com/api/" +:+ key +:+ "s.info");
         JStr tok];;
      r ← http_get ("https://slack.com/api/" +:+ key +:+ "s.info")
            [("token", JStr tok); ("channel", channel)];
      info ← subscript r key; members ← subscript info "members";
      ids ← iterate members;
      users ← member_names ids;
      mret (JArr users)
  end.

(** ** Runs, failed attempts and the envelope shapes of the specification *)

(** The methods a caller (the bot, the event loop) can invoke. *)
Inductive call :=
| Connect
| Read
| Say (message destination : json)
| StartPing
| DoPing
| Authenticate
| ProcessMessage (msg : json)
| GetDmIdByUser (user_id : json)
| Route (message : json).

Definition perform (c : call) : M unit :=
  match c with
  | Connect => connect;; mret ()
  | Read => read;; mret ()
  | Say message destination => say message destination;; mret ()
  | StartPing => start_ping
  | DoPing => do_ping
  | Authenticate => authenticate;; mret ()
  | ProcessMessage msg => process_message msg;; mret ()
  | GetDmIdByUser user_id => get_dm_id_by_user user_id;; mret ()
  | Route message => route message;; mret ()
  end.

(** A process lifetime: calls in sequence, whatever each one's outcome. *)
Fixpoint run (cs : list call) (w : world) : world :=
  match cs with
  | [] => w
  | c :: cs' => run cs' (snd (perform c w))
  end.

(** The world after [n] attempts of the reconnect loop that returned
    failure, each followed by lines 81-82; nothing when one of them did not
    return failure. *)
Fixpoint after_failures (n : nat) (w : world) : option world :=
  match n with
  | O => Some w
  | S n' =>
      match connect w with
      | (Ret JNull, w1) =>
          after_failures n'
            (set_trace (trace w1 ++ [CallBase "error" (JStr "Trying to reconnect...");
                                     Sleep 300]) w1)
      | _ => None
      end
  end.

(** The world in which [read] enters the reconnect loop: the receive was
    answered by a closure, which line 79 logged. *)
Definition closed (w : world) : world :=
  set_trace ((trace w ++ [WsRecv]) ++ [Log ERROR "{}" []])
    (set_outside (pop_recvs (outside w)) w).

(** The envelope shapes in the words of the specification (4.1): (a) a
    correlation id without a type tag, (b) no type tag at all, (c) a
    plain-text message with no subtype, (d) anything else, under the
    composite key [type] or [type_subtype]. *)
Inductive shape :=
| Acknowledgment
| Malformed
| PlainMessage
| OtherEvent (composite_key : string).

(** The type tag of a plain-text message, [type:"message"]. *)
Definition is_message_tag (ty : json) : bool :=
  match ty with
  | JStr s => bool_decide (s = "message")
  | _ => false
  end.

Definition spec_shape (o : list (string * json)) : shape :=
  match obj_get "type" o with
  | None =>
      match obj_get "reply_to" o with
      | Some _ => Acknowledgment
      | None => Malformed
      end
  | Some ty =>
      match obj_get "subtype" o with
      | Some st => OtherEvent (py_str ty +:+ "_" +:+ py_str st)
      | None =>
          if is_message_tag ty then PlainMessage
          else OtherEvent (py_str ty)
      end
  end.

End Connector.

(** ** Observations on traces *)

(** The sequence ids of the message frames written to the transport. *)
Definition message_id (e : event) : option Z :=
  match e with
  | WsSend (JObj o) =>
      match obj_get "type" o, obj_get "id" o with
      | Some (JStr "message"), Some (JNum i) => Some i
      | _, _ => None
      end
  | _ => None
  end.

Definition message_ids (t : list event) : list Z := omap message_id t.

(** The frames written to the transport. *)
Definition frame_of (e : event) : option json :=
  match e with WsSend f => Some f | _ => None end.

Definition frames (t : list event) : list json := omap frame_of t.

(** The backend calls. *)
Definition is_http (e : event) : bool :=
  match e with HttpGet _ _ => true | _ => false end.

(** A computation leaves every world related to the one it started in. *)
Definition preserves (R : relation world) {A} (m : M A) : Prop :=
  ∀ w, R w (snd (m w)).

(** ** Sample sessions *)

(** A base class without the attributes the connector looks up, one that
    provides [error], and a rendering of containers for the examples. *)
Definition no_base : string → bool := λ _, false.
Definition base_with_error : string → bool := λ a, bool_decide (a = "error").
Definition plain : json → string := λ _, "".

(** [str()] of a whole float below [1e16]. *)
Definition dotted : Z → string := λ x, pretty x +:+ ".0".

Definition quiet : env :=
  {| https := []; opens := []; recvs := []; sends := []; clock := [] |}.

Definition alice : json :=
  JObj [("id", JStr "U1"); ("name", JStr "alice"); ("nick", JStr "alice");
        ("deleted", JBool false); ("is_bot", JBool false);
        ("presence", JStr "away")].

Definition hubbot : json :=
  JObj [("id", JStr "U2"); ("name", JStr "hub#bot");
        ("deleted", JBool false); ("is_bot", JBool true)].

Definition buildbot : json :=
  JObj [("id", JStr "U3"); ("name", JStr "buildbot");
        ("deleted", JBool false); ("is_bot", JBool true)].

Definition general : json := JObj [("id", JStr "C1"); ("name", JStr "general")].

Definition session : json :=
  JObj [("ok", JBool true); ("url", JStr "wss://example.test/rtm");
        ("self", JObj [("id", JStr "U0"); ("name", JStr "warmachine")]);
        ("users", JArr [alice; hubbot; buildbot]);
        ("channels", JArr [general])].

(** The connector after [connect] against [session], with the outside
    world [e] from then on. *)
Definition online (e : env) : world :=
  set_outside e
    (snd (connect plain
            (init "xoxb"
               {| https := [Ok session]; opens := [Ok 1%nat]; recvs := [];
                  sends := []; clock := [] |}))).

(** [alice] renamed to [bob]. *)
Definition bob : json :=
  JObj [("id", JStr "U1"); ("name", JStr "bob"); ("nick", JStr "bob");
        ("deleted", JBool false); ("is_bot", JBool false)].

Definition renamed : json :=
  JObj [("type", JStr "user_change"); ("user", bob)].

(** A presence change of a user the cache has never seen. *)
Definition stranger_active : json :=
  JObj [("type", JStr "presence_change"); ("user", JStr "U9");
        ("presence", JStr "active")].

Definition alice_active : json :=
  JObj [("type", JStr "presence_change"); ("user", JStr "U1");
        ("presence", JStr "active")].

(** The answer of the DM-open endpoint for an open channel. *)
Definition dm_opened (c : string) : json :=
  JObj [("ok", JBool true); ("channel", JObj [("id", JStr c)])].

Definition fields_of (v : json) : list (string * json) :=
  match v with JObj o => o | _ => [] end.

(** A session-start response that reports failure. *)
Definition refused : json :=
  JObj [("ok", JBool false); ("error", JStr "invalid_auth")].

(** Outside worlds for the examples: the DM-open endpoint answers and the
    transport accepts or refuses one write; the clock reads; the session
    is closed and comes back after two failed exchanges, or comes back
    with a streaming endpoint that cannot be opened. *)
Definition dm_then_write (c : string) (a : answer unit) : env :=
  {| https := [Ok (dm_opened c)]; opens := []; recvs := []; sends := [a];
     clock := [] |}.

Definition ticking (a : answer unit) : env :=
  {| https := []; opens := []; recvs := []; sends := [a];
     clock := [1469743355] |}.

Definition back_after_two : env :=
  {| https := [Fail (ExternalError "URLError"); Fail (ExternalError "URLError");
               Ok session];
     opens := [Ok 2%nat]; recvs := [Fail ConnectionClosed]; sends := [];
     clock := [] |}.

Definition endpoint_down : env :=
  {| https := [Ok session]; opens := [Fail (ExternalError "OSError")];
     recvs := [Fail ConnectionClosed]; sends := []; clock := [] |}.

(** The connector of [back_after_two] after the closure and the two
    attempts that failed. *)
Definition twice_failed : world :=
  default (online quiet)
    (after_failures plain 2 (closed (online back_after_two))).

(** ** Relations between the world before and after a computation *)

(** A computation that leaves the world as it found it. *)
Definition pure {A} (m : M A) : Prop := ∀ w, snd (m w) = w.

(** No frame is written and the message counter stays. *)
Definition quiet_step : relation world := λ w w',
  frames (trace w') = frames (trace w)
  ∧ _internal_msgid w' = _internal_msgid w.

(** The decoded session payload stays. *)
Definition same_info : relation world := λ w w',
  _info w' = _info w.

(** The script of the HTTP answers stays. *)
Definition same_https : relation world := λ w w',
  https (outside w') = https (outside w).

(** The pauses of the trace stay. *)
Definition pause_of (e : event) : option Z :=
  match e with Sleep s => Some s | _ => None end.

Definition pauses (t : list event) : list Z := omap pause_of t.

Definition same_pauses : relation world := λ w w',
  pauses (trace w') = pauses (trace w).

(** The DM cache only grows. *)
Definition memo_grows : relation world := λ w w',
  dm_memo w ⊆ dm_memo w'.

(** The trace only grows, the message counter never decreases, and the
    message frames added carry strictly increasing ids between the old
    value of the counter (excluded) and the new one (included). *)
Definition ids_advance : relation world := λ w w',
  ∃ t, trace w' = trace w ++ t
       ∧ _internal_msgid w ≤ _internal_msgid w'
       ∧ StronglySorted Z.lt (message_ids t)
       ∧ Forall (λ i, _internal_msgid w < i ≤ _internal_msgid w') (message_ids t).

(** The connection handle and the script of the transport's answers to
    writes stay. *)
Definition same_transport : relation world := λ w w',
  ws w' = ws w ∧ sends (outside w') = sends (outside w).

(** The world after the session-start exchange of [authenticate] (lines
    165-172) was answered. *)
Definition session_fetched (w : world) : world :=
  (set_trace
       ((trace w ++
         [Log DEBUG "Connecting to {}"
            [JStr "https://slack.com/api/rtm.start"; JStr (token w)]]) ++
        [HttpGet "https://slack.com/api/rtm.start" [("token", JStr (token w))]])
       (set_outside (pop_https (outside w)) w)).

(** The timers armed on the event loop. *)
Definition is_timer (e : event) : bool :=
  match e with CallLater _ _ => true | _ => false end.

(** No session is opened: the handle, the host, the connection state and
    the script of the streaming endpoint stay. *)
Definition unconnected : relation world := λ w w',
  ws w' = ws w ∧ host w' = host w ∧ STATUS w' = STATUS w
  ∧ opens (outside w') = opens (outside w).

(** The user caches stay. *)
Definition same_users : relation world := λ w w',
  user_map w' = user_map w ∧ user_nick_to_id w' = user_nick_to_id w.

(** The channel caches stay. *)
Definition same_channels : relation world := λ w w',
  channel_map w' = channel_map w
  ∧ channel_name_to_id w' = channel_name_to_id w.

(** The session identity stays. *)
Definition same_identity : relation world := λ w w',
  my_id w' = my_id w ∧ nick w' = nick w.

(** No key of a cache is dropped. *)
Definition caches_grow : relation world := λ w w',
  dom (user_map w) ⊆ dom (user_map w')
  ∧ dom (user_nick_to_id w) ⊆ dom (user_nick_to_id w')
  ∧ dom (channel_map w) ⊆ dom (channel_map w')
  ∧ dom (channel_name_to_id w) ⊆ dom (channel_name_to_id w').

(** The sequence ids of the ping frames written to the transport. *)
Definition ping_id (e : event) : option Z :=
  match e with
  | WsSend (JObj o) =>
      match obj_get "type" o, obj_get "id" o with
      | Some (JStr "ping"), Some (JNum i) => Some i
      | _, _ => None
      end
  | _ => None
  end.

Definition ping_ids (t : list event) : list Z := omap ping_id t.

(** As [ids_advance], for the ping frames and the ping counter. *)
Definition pings_advance : relation world := λ w w',
  ∃ t, trace w' = trace w ++ t
       ∧ _internal_pingid w ≤ _internal_pingid w'
       ∧ StronglySorted Z.lt (ping_ids t)
       ∧ Forall (λ i, _internal_pingid w < i ≤ _internal_pingid w') (ping_ids t).

(** What the bootstrap reads of one record of the [users] collection: the
    key of its id, its id, and the key of its name. *)
Definition user_entry (u : json) : option (key * json * key) :=
  match u with
  | JObj uo =>
      match obj_get "id" uo, obj_get "name" uo with
      | Some i, Some n =>
          match to_key i, to_key n with
          | Some k, Some kn => Some (k, i, kn)
          | _, _ => None
          end
      | _, _ => None
      end
  | _ => None
  end.

(** The name the user cache has for a member id. *)
Definition cached_name (w : world) (u_id name : json) : Prop :=
  ∃ k r, to_key u_id = Some k ∧ user_map w !! k = Some (JObj r)
         ∧ obj_get "name" r = Some name.

(** The trace stays. *)
Definition same_trace : relation world := λ w w',
  trace w' = trace w.

(** Nothing is exchanged with the outside but readings of the clock: no
    frame is written, and the scripts of the backend, of the streaming
    endpoint and of the transport stay. *)
Definition no_traffic : relation world := λ w w',
  frames (trace w') = frames (trace w)
  ∧ https (outside w') = https (outside w)
  ∧ opens (outside w') = opens (outside w)
  ∧ recvs (outside w') = recvs (outside w)
  ∧ sends (outside w') = sends (outside w).

(** The calls that can take in a session-start payload. *)
Definition bootstraps (c : call) : bool :=
  match c with
  | Connect | Read | Authenticate => true
  | _ => false
  end.

(** The world after a receive that the transport answered. *)
Definition received (w : world) : world :=
  set_trace (trace w ++ [WsRecv]) (set_outside (pop_recvs (outside w)) w).

(** The [users] list of a payload. *)
Definition payload_users (info : json) : option (list json) :=
  match info with
  | JObj o =>
      match obj_get "users" o with
      | Some (JArr us) => Some us
      | _ => None
      end
  | _ => None
  end.

(** What [in_info] stands for: a record of [user_map] that is an entry of
    the payload is that entry, and no entry is the record of two keys. *)
Definition coherent (w : world) : Prop :=
  (∀ k i, in_info w !! k = Some i →
     ∃ r us, payload_users (_info w) = Some us ∧ us !! i = Some r
             ∧ user_map w !! k = Some r)
  ∧ (∀ k k' i, in_info w !! k = Some i → in_info w !! k' = Some i → k = k').

(** A property of the world that is kept. *)
Definition keeps (P : world → Prop) : relation world := λ w w',
  P w → P w'.

(** Every entry of the payload that is a record of [user_map] comes
    before position [j]. *)
Definition entries_below (j : nat) (w : world) : Prop :=
  ∀ k i, in_info w !! k = Some i → (i < j)%nat.

(** ** More sample sessions *)

(** The connector with the session payload stored, before the bootstrap
    has run. *)
Definition fetched (info : json) : world := set_info info (init "xoxb" quiet).

(** A session payload without a [self] section. *)
Definition anonymous : json :=
  JObj [("ok", JBool true); ("users", JArr [alice])].

(** Messages: a greeting in a channel, one from a user the cache has never
    seen, one without text, and the lag command in a direct message. *)
Definition hello_general : json :=
  JObj [("type", JStr "message"); ("user", JStr "U1");
        ("channel", JStr "C1"); ("text", JStr "hello")].

Definition hello_stranger : json :=
  JObj [("type", JStr "message"); ("user", JStr "U9");
        ("channel", JStr "C1"); ("text", JStr "hello")].

Definition textless : json :=
  JObj [("type", JStr "message"); ("user", JStr "U1"); ("channel", JStr "C1")].

Definition lag_direct : json :=
  JObj [("type", JStr "message"); ("user", JStr "U1");
        ("channel", JStr "D1"); ("text", JStr "!slack-lag")].

(** The answer to a ping sent a second before the clock is read. *)
Definition pong : json :=
  JObj [("type", JStr "pong"); ("reply_to", JNum 1);
        ("time", JNum 1469743354000)].

(** The transport accepts one write. *)
Definition writable : env :=
  {| https := []; opens := []; recvs := []; sends := [Ok ()]; clock := [] |}.

(** A connector whose channel name index holds an id that is neither a
    channel nor a group. *)
Definition odd_channel : world :=
  set_channel_name_to_id {[ KStr "odd" := JStr "X1" ]} (init "xoxb" quiet).

(** The answer of the channel endpoint, and an outside world that gives
    it. *)
Definition general_info : json :=
  JObj [("ok", JBool true);
        ("channel", JObj [("id", JStr "C1");
                          ("members", JArr [JStr "U3"; JStr "U1"])])].

Definition channel_listed : env :=
  {| https := [Ok general_info]; opens := []; recvs := []; sends := [];
     clock := [] |}.

(** The receive fails, and not with a closure. *)
Definition garbled : env :=
  {| https := []; opens := []; recvs := [Fail (ExternalError "ValueError")];
     sends := []; clock := [] |}.

(** A bot whose record has no [deleted] field, and a connector that has
    it in its user caches. *)
Definition ghost : json :=
  JObj [("id", JStr "U4"); ("name", JStr "ghost"); ("is_bot", JBool true)].

Definition haunted : world :=
  set_user_nick_to_id {[ KStr "ghost" := JStr "U4" ]}
    (set_user_map {[ KStr "U4" := ghost ]} (init "xoxb" quiet)).

(** A presence change of a user the cache has never seen is received. *)
Definition stranger_announced : env :=
  {| https := []; opens := []; recvs := [Ok stranger_active]; sends := [];
     clock := [] |}.

(** The connector after the answer to a ping. *)
Definition ponged : world := snd (on_pong pong (online (ticking (Ok ())))).

(** * Properties *)

(** ** Objects and keys *)

Lemma obj_get_set_eq k v o : obj_get k (obj_set k v o) = Some v.
Proof.
  induction o as [|[k' v'] o IH]; simpl.
  - by rewrite decide_True.
  - destruct (decide (k' = k)) as [->|Hne]; simpl.
    + by rewrite decide_True.
    + by rewrite decide_False.
Qed.

Lemma obj_get_set_ne k k' v o :
  k' ≠ k → obj_get k' (obj_set k v o) = obj_get k' o.
Proof.
  intros Hne. induction o as [|[k0 v0] o IH]; simpl.
  - rewrite decide_False; [done|congruence].
  - destruct (decide (k0 = k)) as [->|Hk]; simpl.
    + rewrite !decide_False; congruence.
    + destruct (decide (k0 = k')); [done|apply IH].
Qed.

(** [==] is reflexive on the hashable values. *)
Lemma py_eqb_hashable v k : to_key v = Some k → py_eqb v v = true.
Proof. destruct v; simpl; intros; try done; by rewrite bool_decide_true. Qed.

Lemma py_eqb_message ty : py_eqb ty (JStr "message") = true ↔ ty = JStr "message".
Proof.
  destruct ty; simpl; try (split; [done|discriminate]).
  rewrite bool_decide_eq_true. split; congruence.
Qed.

(** ** Stepping a computation *)

Ltac unfold_m :=
  unfold subscript, contains, dict_get, set_item, str_startswith, lookup_key,
    hashable, of_option, emit, log, gets, modify, raise, try_except,
    mbind, M_bind, mret, M_ret in *.

(** ** The user cache: [on_user_change] and [on_presence_change] *)

(** Whatever the event, [on_user_change] leaves the name index as it was:
    the old name is read back from the record that line 260 has just
    stored, so the comparison of line 268 never holds for a name that can
    be a key. *)
Lemma on_user_change_keeps_index msg w :
  user_nick_to_id (snd (on_user_change msg w)) = user_nick_to_id w.
Proof.
  unfold on_user_change, del_user_nick. unfold_m.
  destruct msg as [| | | | |m]; try done. cbn.
  destruct (obj_get "user" m) as [ui|]; [|done]. cbn.
  destruct ui as [| | | | |o]; try done. cbn.
  destruct (obj_get "id" o) as [id|]; [|done]. cbn.
  destruct (to_key id) as [k|]; [|done]. cbn.
  rewrite lookup_insert_eq. cbn.
  destruct (obj_get "nick" o) as [n|]; [|done]. cbn.
  destruct (truthy n); [|done]. cbn.
  destruct (py_eqb n n) eqn:Hn; [done|]. cbn.
  destruct (to_key n) as [kn|] eqn:Hk; [|done].
  by rewrite (py_eqb_hashable _ _ Hk) in Hn.
Qed.

(** C1, at the renaming of [alice] to [bob]: after [on_user_change] the old
    name still resolves to the user's id and the new name is in no index
    entry, so [user_nick_to_id['bob']] raises [KeyError]. *)
Theorem on_user_change_rename_keeps_old_name :
  let w := online quiet in
  let w' := snd (on_user_change renamed w) in
  user_nick_to_id w !! KStr "alice" = Some (JStr "U1")
  ∧ fst (on_user_change renamed w) = Ret ()
  ∧ user_map w' !! KStr "U1" = Some bob
  ∧ user_nick_to_id w' !! KStr "alice" = Some (JStr "U1")
  ∧ fst (lookup_key (user_nick_to_id w') (JStr "alice") w') = Ret (JStr "U1")
  ∧ fst (lookup_key (user_nick_to_id w') (JStr "bob") w') = Raise (KeyError (JStr "bob")).
Proof. vm_compute. done. Qed.

(** ** Frame reasoning *)

Lemma pure_ret {A} (a : A) : pure (mret a).
Proof. by intros w. Qed.

Lemma pure_raise {A} (e : exn) : pure (@raise A e).
Proof. by intros w. Qed.

Lemma pure_gets {A} (f : world → A) : pure (gets f).
Proof. by intros w. Qed.

Lemma pure_of_option {A} (o : option A) (e : exn) : pure (of_option o e).
Proof. by destruct o. Qed.

Lemma pure_bind {A B} (m : M A) (f : A → M B) :
  pure m → (∀ a, pure (f a)) → pure (m ≫= f).
Proof.
  intros Hm Hf w. unfold mbind, M_bind. specialize (Hm w).
  destruct (m w) as [[a| |] w']; simpl in *; subst; [apply Hf|done..].
Qed.

Lemma pure_subscript v k : pure (subscript v k).
Proof. destruct v; try apply pure_raise. apply pure_of_option. Qed.

Lemma pure_contains k v : pure (contains k v).
Proof. by destruct v. Qed.

Lemma pure_dict_get v k d : pure (dict_get v k d).
Proof. by destruct v. Qed.

Lemma pure_set_item v k x : pure (set_item v k x).
Proof. by destruct v. Qed.

Lemma pure_iterate v : pure (iterate v).
Proof. by destruct v. Qed.

Lemma pure_str_startswith v p : pure (str_startswith v p).
Proof. by destruct v. Qed.

Lemma pure_hashable v : pure (hashable v).
Proof. apply pure_of_option. Qed.

Lemma pure_lookup_key d v : pure (lookup_key d v).
Proof.
  apply pure_bind; [apply pure_hashable|]. intros k. apply pure_of_option.
Qed.

Lemma pure_as_number v : pure (as_number v).
Proof. by destruct v. Qed.

Lemma pure_str_split_tail v : pure (str_split_tail v).
Proof. by destruct v. Qed.

Lemma pure_str_replace_hash v : pure (str_replace_hash v).
Proof. by destruct v. Qed.

Create HintDb pure_db.
#[export] Hint Resolve pure_ret pure_raise pure_gets pure_of_option
  pure_subscript pure_contains pure_dict_get pure_set_item pure_iterate
  pure_str_startswith pure_hashable pure_lookup_key pure_as_number
  pure_str_split_tail pure_str_replace_hash : pure_db.

Section Frame.
Context (R : relation world) `{!PreOrder R}.

Lemma preserves_pure {A} (m : M A) : pure m → preserves R m.
Proof. intros Hm w. by rewrite Hm. Qed.

Lemma preserves_bind {A B} (m : M A) (f : A → M B) :
  preserves R m → (∀ a, preserves R (f a)) → preserves R (m ≫= f).
Proof.
  intros Hm Hf w. unfold mbind, M_bind. specialize (Hm w).
  destruct (m w) as [[a| |] w']; simpl in *; [|done..].
  by etrans; [|apply Hf].
Qed.

Lemma preserves_try_except {A} (m h : M A) handles :
  preserves R m → preserves R h → preserves R (try_except m handles h).
Proof.
  intros Hm Hh w. unfold try_except. specialize (Hm w).
  destruct (m w) as [[a|e|] w']; simpl in *; [done| |done].
  destruct (handles e); [|done]. by etrans; [|apply Hh].
Qed.

Lemma preserves_for_each {A} (l : list A) (body : A → M unit) :
  (∀ a, preserves R (body a)) → preserves R (for_each l body).
Proof.
  intros Hb. induction l as [|a l IH]; simpl.
  - by apply preserves_pure, pure_ret.
  - by apply preserves_bind.
Qed.

Lemma preserves_modify (f : world → world) :
  (∀ w, R w (f w)) → preserves R (modify f).
Proof. intros Hf w. apply Hf. Qed.

Lemma preserves_ask {A} (script : env → list (answer A)) pop request :
  (∀ w, R w (set_trace (trace w ++ [request])
               (set_outside (pop (outside w)) w))) →
  preserves R (ask script pop request).
Proof.
  intros H w. unfold ask. destruct (script (outside w)) as [|a ?]; [done|].
  destruct a; apply H.
Qed.

Lemma preserves_time_ms :
  (∀ w, R w (set_outside (pop_clock (outside w)) w)) → preserves R time_ms.
Proof.
  intros H w. unfold time_ms. destruct (clock (outside w)); [done|apply H].
Qed.

End Frame.

(** Walks a computation down to its assignments and its calls to the
    outside, where [leaf] shows that the relation is kept; a computation
    the database [frame_db] covers is not opened. *)
Create HintDb frame_db.

Ltac frame_step leaf :=
  first
  [ solve [eauto 2 with frame_db nocore]
  | lazymatch goal with
    | |- preserves _ (_ ≫= _) =>
        apply preserves_bind; [try apply _| |intros ?]
    | |- preserves _ (try_except _ _ _) =>
        apply preserves_try_except; [try apply _| |]
    | |- preserves _ (for_each _ _) =>
        apply preserves_for_each; [try apply _|intros ?]
    | |- preserves _ (modify (mutate_user _ _)) =>
        apply preserves_modify; intros ?; unfold mutate_user; case_match; leaf
    | |- preserves _ (modify _) => apply preserves_modify; intros ?; leaf
    | |- preserves _ (emit _) => apply preserves_modify; intros ?; leaf
    | |- preserves _ (log _ _ _) => apply preserves_modify; intros ?; leaf
    | |- preserves _ (ask _ _ _) =>
        apply preserves_ask; [try apply _|intros ?; leaf]
    | |- preserves _ time_ms =>
        apply preserves_time_ms; [try apply _|intros ?; leaf]
    | |- preserves _ (if ?b then _ else _) => destruct b
    | |- preserves _ (match ?x with _ => _ end) => destruct x eqn:?
    | |- preserves _ _ =>
        apply preserves_pure; [try apply _|]; solve [auto with pure_db]
    end ].

Ltac frame leaf := repeat (frame_step leaf).

(** ** What the methods leave alone *)

Lemma frames_app t1 t2 : frames (t1 ++ t2) = frames t1 ++ frames t2.
Proof. apply omap_app. Qed.

Lemma message_ids_app t1 t2 :
  message_ids (t1 ++ t2) = message_ids t1 ++ message_ids t2.
Proof. apply omap_app. Qed.

#[global] Instance quiet_step_preorder : PreOrder quiet_step.
Proof.
  split; [by intros ?|]. intros w1 w2 w3 [? ?] [? ?].
  unfold quiet_step in *. split; congruence.
Qed.

#[global] Instance same_info_preorder : PreOrder same_info.
Proof.
  split; [by intros ?|]. intros w1 w2 w3 ? ?.
  unfold same_info in *. congruence.
Qed.

#[global] Instance same_https_preorder : PreOrder same_https.
Proof.
  split; [by intros ?|]. intros w1 w2 w3 ? ?.
  unfold same_https in *. congruence.
Qed.

#[global] Instance same_pauses_preorder : PreOrder same_pauses.
Proof.
  split; [by intros ?|]. intros w1 w2 w3 ? ?.
  unfold same_pauses in *. congruence.
Qed.

#[global] Instance same_transport_preorder : PreOrder same_transport.
Proof.
  split; [by intros ?|]. intros w1 w2 w3 [? ?] [? ?].
  unfold same_transport in *. split; congruence.
Qed.

#[global] Instance memo_grows_preorder : PreOrder memo_grows.
Proof.
  split; [intros ?; by unfold memo_grows|]. intros w1 w2 w3 ? ?.
  unfold memo_grows in *. by etrans.
Qed.

Ltac memo_leaf := unfold memo_grows; cbn; reflexivity.

Ltac quiet_leaf :=
  split; [unfold frames; cbn; rewrite ?omap_app; cbn; by rewrite ?app_nil_r
         |done].

Lemma process_connect_info_same_info info :
  preserves same_info (process_connect_info info).
Proof. unfold process_connect_info. frame ltac:(done). Qed.

Lemma process_connect_info_same_https info :
  preserves same_https (process_connect_info info).
Proof. unfold process_connect_info. frame ltac:(done). Qed.

Ltac pauses_leaf :=
  unfold same_pauses, pauses; cbn; rewrite ?omap_app; cbn;
  by rewrite ?app_nil_r.

Lemma process_connect_info_same_pauses info :
  preserves same_pauses (process_connect_info info).
Proof. unfold process_connect_info. frame pauses_leaf. Qed.

Lemma process_connect_info_quiet info :
  preserves quiet_step (process_connect_info info).
Proof. unfold process_connect_info. frame quiet_leaf. Qed.

Lemma process_connect_info_memo info :
  preserves memo_grows (process_connect_info info).
Proof. unfold process_connect_info. frame memo_leaf. Qed.

#[export] Hint Resolve process_connect_info_quiet process_connect_info_memo
  process_connect_info_same_https process_connect_info_same_pauses : frame_db.

Lemma get_dm_id_by_user_quiet user_id :
  preserves quiet_step (get_dm_id_by_user user_id).
Proof.
  unfold get_dm_id_by_user, memoize, get_dm_id_by_user_body, http_get.
  frame quiet_leaf.
Qed.

#[export] Hint Resolve get_dm_id_by_user_quiet : frame_db.

Lemma get_dm_id_by_user_same_transport user_id :
  preserves same_transport (get_dm_id_by_user user_id).
Proof.
  unfold get_dm_id_by_user, memoize, get_dm_id_by_user_body, http_get.
  frame ltac:(done).
Qed.

Lemma say_destination_quiet destination :
  preserves quiet_step (say_destination destination).
Proof. unfold say_destination. frame quiet_leaf. Qed.

Section Quiet.
Context (base_has : string → bool) (str_container : json → string).

Lemma authenticate_quiet : preserves quiet_step (authenticate str_container).
Proof. unfold authenticate, authenticate_with, http_get. frame quiet_leaf. Qed.

Lemma connect_quiet : preserves quiet_step (connect str_container).
Proof.
  pose proof authenticate_quiet.
  unfold connect, ws_connect. frame quiet_leaf.
Qed.

Lemma reconnect_loop_quiet fuel :
  preserves quiet_step (reconnect_loop base_has str_container fuel).
Proof.
  pose proof connect_quiet.
  induction fuel as [|fuel IH]; simpl; [by intros w|].
  unfold call_base. frame quiet_leaf.
Qed.

End Quiet.

(** ** [say]: the destination and the bot filter *)

Lemma startswith_hash_substring d :
  startswith "#" d = true → is_substring "#" d = true.
Proof.
  unfold startswith, is_substring. destruct d as [|a d]; [done|].
  intros H. cbn [String.index]. by rewrite H.
Qed.

Section Say.
Context (str_container : json → string).

(** The rejection of lines 136-138. *)
Lemma say_destination_rejects d u k o w :
  is_substring "#" d = false →
  user_nick_to_id w !! KStr d = Some u → to_key u = Some k →
  user_map w !! k = Some (JObj o) →
  (∃ v, obj_get "deleted" o = Some v ∧ truthy v = true)
  ∨ (∃ v, obj_get "is_bot" o = Some v ∧ truthy v = true) →
  ∃ res w', say_destination (JStr d) w = (res, w')
    ∧ res = match obj_get "deleted" o with
            | Some _ => Ret None
            | None => Raise (KeyError (JStr "deleted"))
            end
    ∧ (w' = w
       ∨ w' = set_trace (trace w ++ [Log ERROR "is_bot property not found for user {}" [JStr d]]) w).
Proof.
  intros Hh Hu Hk Hr Hflag.
  assert (startswith "#" d = false) as Hs.
  { destruct (startswith "#" d) eqn:E; [|done].
    apply startswith_hash_substring in E. congruence. }
  unfold say_destination. unfold_m.
  destruct (obj_get "is_bot" o) as [b|] eqn:Hb;
    destruct (obj_get "deleted" o) as [dl|] eqn:Hd;
    try destruct (truthy dl) eqn:Hdl.
  all: destruct d as [|a d]; cbn; rewrite ?Hs; cbn.
  all: rewrite Hu; cbn; rewrite Hh; cbn; rewrite Hk; cbn; rewrite Hr; cbn.
  all: rewrite Hb; cbn; rewrite ?Hk; cbn; rewrite ?Hr; cbn; rewrite ?Hd; cbn.
  all: rewrite ?Hdl; cbn; rewrite ?Hk; cbn; rewrite ?Hr; cbn; rewrite ?Hb; cbn.
  all: destruct Hflag as [(v & Hv & Ht)|(v & Hv & Ht)]; simplify_eq.
  all: try congruence.
  all: rewrite ?Ht; cbn.
  all: eexists _, _; split; [reflexivity|].
  all: split; [reflexivity|]; eauto.
Qed.

(** C3, as the code has it: a destination without ['#'] that the user
    name index resolves to a record whose [deleted] or [is_bot] field is
    true is dropped: no frame is written, the message counter and the
    outside world are untouched; [say] returns [None] when the record has
    a [deleted] field and raises [KeyError] on [deleted] when it has
    none. *)
Theorem say_drops_bot_or_deleted message d u k o w :
  is_substring "#" d = false →
  user_nick_to_id w !! KStr d = Some u → to_key u = Some k →
  user_map w !! k = Some (JObj o) →
  (∃ v, obj_get "deleted" o = Some v ∧ truthy v = true)
  ∨ (∃ v, obj_get "is_bot" o = Some v ∧ truthy v = true) →
  let r := say str_container message (JStr d) w in
  frames (trace (snd r)) = frames (trace w)
  ∧ _internal_msgid (snd r) = _internal_msgid w
  ∧ outside (snd r) = outside w
  ∧ fst r = match obj_get "deleted" o with
            | Some _ => Ret JNull
            | None => Raise (KeyError (JStr "deleted"))
            end.
Proof.
  intros Hh Hu Hk Hr Hflag.
  destruct (say_destination_rejects d u k o w Hh Hu Hk Hr Hflag)
    as (res & w' & Hsd & Hres & Hw').
  cbn zeta. unfold say, mbind, M_bind. rewrite Hsd.
  assert (frames (trace w') = frames (trace w)
          ∧ _internal_msgid w' = _internal_msgid w
          ∧ outside w' = outside w) as (? & ? & ?).
  { destruct Hw' as [->| ->]; [done|]. cbn.
    by rewrite frames_app, app_nil_r. }
  rewrite Hres. destruct (obj_get "deleted" o); cbn; repeat split; done.
Qed.

(** What [say_send] does on an open connection. *)
Lemma say_send_open message channel w h a ss :
  ws w = Some h → sends (outside w) = a :: ss →
  let frame := JObj [("id", JNum (_internal_msgid w + 1));
                     ("type", JStr "message"); ("channel", channel);
                     ("text", JStr (py_str str_container message))] in
  let r := say_send str_container message channel w in
  trace (snd r) = trace w ++ [Log DEBUG "Saying {}" [frame]; WsSend frame]
  ∧ _internal_msgid (snd r) = _internal_msgid w + 1
  ∧ fst r = match a with Ok _ => Ret JNull | Fail e => Raise e end.
Proof.
  intros Hws Hs. unfold say_send, _send, ws_send, ask. unfold_m. cbn.
  rewrite Hws. cbn. rewrite Hs. destruct a as [[]|e]; cbn.
  all: by rewrite <- app_assoc.
Qed.

(** C10: a destination with ['#'] somewhere but not in first place goes
    through the user name index and neither check of lines 131-138 is
    made: whatever the record of the user says (no assumption is made on
    [user_map]), once the DM resolver has returned, [say] takes the
    next sequence id and writes the frame. *)
Theorem say_skips_checks_when_hash_inside message d u c w w1 h a ss :
  startswith "#" d = false → is_substring "#" d = true →
  user_nick_to_id w !! KStr d = Some u →
  get_dm_id_by_user u w = (Ret c, w1) →
  ws w = Some h → sends (outside w) = a :: ss →
  let frame := JObj [("id", JNum (_internal_msgid w + 1));
                     ("type", JStr "message"); ("channel", c);
                     ("text", JStr (py_str str_container message))] in
  let r := say str_container message (JStr d) w in
  frames (trace (snd r)) = frames (trace w) ++ [frame]
  ∧ _internal_msgid (snd r) = _internal_msgid w + 1
  ∧ fst r = match a with Ok _ => Ret JNull | Fail e => Raise e end.
Proof.
  intros Hs Hh Hu Hdm Hws Hsends.
  pose proof (get_dm_id_by_user_quiet u w) as [Hfr Hid].
  pose proof (get_dm_id_by_user_same_transport u w) as [Hws1 Hs1].
  rewrite Hdm in Hfr, Hid, Hws1, Hs1. cbn in Hfr, Hid, Hws1, Hs1.
  rewrite Hws in Hws1. rewrite Hsends in Hs1.
  assert (say_destination (JStr d) w = (Ret (Some c), w1)) as Hsd.
  { unfold say_destination. unfold_m.
    destruct d as [|x d]; [done|]. cbn. rewrite Hs. cbn. rewrite Hu. cbn.
    rewrite Hh. cbn. by rewrite Hdm. }
  cbn zeta. unfold say, mbind, M_bind. rewrite Hsd.
  destruct (say_send_open message c w1 h a ss Hws1 Hs1) as (Ht & Hm & Hr).
  rewrite Ht, Hm, Hr, frames_app, Hfr, Hid. done.
Qed.

End Say.

(** ** [read]: routing of a decoded envelope *)

Section Route.
Context (base_has : string → bool).
Context (str_container : json → string).
Context (pformat : json → string).
Context (str_float : Z → string).

Lemma py_eqb_message_tag ty : py_eqb ty (JStr "message") = is_message_tag ty.
Proof. by destruct ty. Qed.

(** C4: on a decoded envelope (a JSON object) [read] does what the shape
    of the envelope says: an acknowledgment is discarded; an envelope
    without a type tag is logged and discarded; a plain message goes to
    [process_message]; anything else is looked up under [on_] and its
    composite key, called when the attribute exists, and otherwise logged
    at debug level and dropped, [read] returning [None] without raising. *)
Theorem route_by_shape o w :
  route base_has str_container pformat str_float (JObj o) w =
  match spec_shape str_container o with
  | Acknowledgment => (Ret JNull, w)
  | Malformed =>
      (Ret JNull,
       set_trace (trace w ++ [Log ERROR "Received typeless message: {}"
                                [JObj o]]) w)
  | PlainMessage => process_message str_container pformat str_float (JObj o) w
  | OtherEvent key =>
      if hasattr base_has ("on_" +:+ key)
      then (call_attr base_has ("on_" +:+ key) (JObj o);; mret JNull) w
      else (Ret JNull,
            set_trace (trace w ++ [Log DEBUG "{} does not exist for message: {}"
                                     [JStr ("on_" +:+ key); JObj o]]) w)
  end.
Proof.
  unfold route, spec_shape. unfold_m. cbn.
  destruct (obj_get "type" o) as [ty|] eqn:Hty; cbn.
  - destruct (bool_decide (is_Some (obj_get "reply_to" o))); cbn.
    all: rewrite py_eqb_message_tag.
    all: destruct (obj_get "subtype" o) as [st|] eqn:Hst; cbn.
    all: destruct (is_message_tag ty); cbn; try done.
    all: by destruct (hasattr _ _).
  - destruct (obj_get "reply_to" o); by cbn.
Qed.

End Route.

(** ** [authenticate] and [connect] *)

Section Authenticate.
Context (base_has : string → bool).
Context (str_container : json → string).

(** C6: when the session-start response reports failure ([ok] false),
    [authenticate] raises an exception whose message is ['Slack Error: ']
    followed by the response's [error], or by ['Unknown Error'] when there
    is none; otherwise, once the payload has seeded the caches, it returns
    the [url] of the response. *)
Theorem authenticate_outcome o rest w :
  https (outside w) = Ok (JObj o) :: rest →
  let w1 := set_info (JObj o) (session_fetched w) in
  let reason := default (JStr "Unknown Error") (obj_get "error" o) in
  let url := default JNull (obj_get "url" o) in
  if truthy (default (JBool true) (obj_get "ok" o)) then
    ∀ w2, process_connect_info (JObj o) w1 = (Ret (), w2) →
      authenticate str_container w
      = (Ret url, set_trace (trace w2 ++ [Log DEBUG "Got websocket url: {}" [url]]) w2)
  else
    authenticate str_container w
    = (Raise (Exception_ ("Slack Error: " +:+ py_str str_container reason)), w1).
Proof.
  intros Hs. cbn zeta.
  pose proof (process_connect_info_same_info (JObj o)
                (set_info (JObj o) (session_fetched w))) as Hi.
  unfold same_info in Hi.
  unfold authenticate, authenticate_with, http_get, ask. unfold_m. cbn.
  rewrite Hs. cbn.
  destruct (truthy (default (JBool true) (obj_get "ok" o))); cbn; [|done].
  intros w2 Hp.
  match goal with
  | |- context [process_connect_info (JObj o) ?W] =>
      change W with (set_info (JObj o) (session_fetched w))
  end.
  rewrite Hp in Hi. cbn in Hi. rewrite Hp. cbn. rewrite Hi. cbn.
  by rewrite Hi.
Qed.

End Authenticate.

(** ** The heartbeat: [do_ping] and [start_ping] *)

(** C9, as the code has it: [do_ping] takes the next id of the ping
    counter (the message counter stays), writes a ping frame with that id
    and the clock reading in milliseconds, and arms a timer of 4 for
    [start_ping] when the write returns; when the write raises, the
    exception leaves [do_ping] and no timer is armed. [start_ping] in turn
    schedules [do_ping]. *)
Theorem do_ping_outcome w h t ts a ss :
  ws w = Some h → clock (outside w) = t :: ts →
  sends (outside w) = a :: ss →
  let frame := JObj [("id", JNum (_internal_pingid w + 1));
                     ("type", JStr "ping"); ("time", JNum (t * 1000))] in
  let r := do_ping w in
  _internal_pingid (snd r) = _internal_pingid w + 1
  ∧ _internal_msgid (snd r) = _internal_msgid w
  ∧ match a with
    | Ok _ =>
        fst r = Ret ()
        ∧ trace (snd r) = trace w ++ [WsSend frame; CallLater 4 "start_ping"]
    | Fail e =>
        fst r = Raise e ∧ trace (snd r) = trace w ++ [WsSend frame]
    end
  ∧ start_ping (snd r)
    = (Ret (), set_trace (trace (snd r) ++ [EnsureFuture "do_ping"]) (snd r)).
Proof.
  intros Hws Hc Hs. unfold do_ping, _send, ws_send, time_ms, ask. unfold_m.
  cbn. rewrite Hc. cbn. rewrite Hws. cbn. rewrite Hs.
  destruct a as [[]|e]; cbn; repeat split; by rewrite <- ?app_assoc.
Qed.

(** ** Every method, for a relation that its assignments keep *)

Lemma assoc_Forall {A} (P : A → Prop) k l v :
  Forall (λ p, P p.2) l → assoc k l = Some v → P v.
Proof.
  induction 1 as [|[k' v'] l HP _ IH]; simpl; [done|].
  destruct (decide (k' = k)); [by intros [= <-]|done].
Qed.

Ltac open_method :=
  progress unfold say, say_send, say_destination, process_message, route,
    read, connect, authenticate, authenticate_with, do_ping, start_ping, _send,
    call_attr, call_base, on_hello, on_user_change, on_presence_change,
    on_pong, no_op, del_user_nick, http_get, ws_connect, ws_recv, ws_send.

Ltac frame_all leaf :=
  repeat first [ frame_step leaf | open_method ].

Lemma get_dm_id_by_user_memo user_id :
  preserves memo_grows (get_dm_id_by_user user_id).
Proof.
  intros w. unfold memo_grows, get_dm_id_by_user, memoize,
    get_dm_id_by_user_body, http_get, ask. unfold_m. cbn.
  destruct (to_key user_id) as [k|]; [|done]. cbn.
  destruct (dm_memo w !! k) eqn:Hk; [done|]. cbn.
  destruct (https (outside w)) as [|[data|e] ?]; [done| |done]. cbn.
  destruct data as [| | | | |dt]; try done. cbn.
  destruct (obj_get "ok" dt) as [ok|]; [|done]. cbn.
  destruct (truthy ok); [|done]. cbn.
  destruct (obj_get "channel" dt) as [ch|]; [|done]. cbn.
  destruct ch as [| | | | |c]; try done. cbn.
  destruct (obj_get "id" c) as [i|]; [|done]. cbn.
  destruct i; cbn; try done; by apply insert_subseteq.
Qed.

#[export] Hint Resolve get_dm_id_by_user_memo : frame_db.

Section AllMethods.
Context (base_has : string → bool).
Context (str_container : json → string).
Context (pformat : json → string).
Context (str_float : Z → string).

Lemma reconnect_loop_memo fuel :
  preserves memo_grows (reconnect_loop base_has str_container fuel).
Proof.
  induction fuel as [|fuel IH]; simpl; [by intros w|].
  frame_all memo_leaf.
Qed.

Lemma reconnect_memo :
  preserves memo_grows (reconnect base_has str_container).
Proof. intros w. apply reconnect_loop_memo. Qed.

Lemma own_attrs_memo msg :
  Forall (λ p, preserves memo_grows (p.2 msg)) own_attrs.
Proof. unfold own_attrs. repeat constructor; cbn; frame_all memo_leaf. Qed.

Lemma perform_memo c :
  preserves memo_grows (perform base_has str_container pformat str_float c).
Proof.
  pose proof reconnect_memo.
  assert (∀ name h msg, own_attr name = Some h → preserves memo_grows (h msg)).
  { intros name h msg. apply (assoc_Forall (λ h, preserves memo_grows (h msg))).
    apply own_attrs_memo. }
  destruct c; simpl; frame_all memo_leaf.
Qed.
End AllMethods.

#[global] Instance ids_advance_preorder : PreOrder ids_advance.
Proof.
  split.
  - intros w. exists []. rewrite app_nil_r. repeat split; [lia|constructor..].
  - intros w1 w2 w3 (t1 & Ht1 & Hle1 & Hs1 & Hb1) (t2 & Ht2 & Hle2 & Hs2 & Hb2).
    exists (t1 ++ t2). rewrite Ht2, Ht1, app_assoc, message_ids_app.
    repeat split; [lia| |].
    + apply StronglySorted_app_2; [|done..].
      intros x1 x2 Hx1 Hx2.
      rewrite Forall_forall in Hb1, Hb2.
      apply Hb1 in Hx1. apply Hb2 in Hx2. lia.
    + apply Forall_app. split.
      * eapply Forall_impl; [exact Hb1|]. intros i ?. simpl in *. lia.
      * eapply Forall_impl; [exact Hb2|]. intros i ?. simpl in *. lia.
Qed.

Ltac ids_leaf :=
  first
  [ exists []; split; [cbn; by rewrite app_nil_r|];
    cbn; repeat split; [lia|constructor..]
  | eexists [_]; split; [reflexivity|];
    cbn; repeat split; [lia|constructor..] ].

Lemma process_connect_info_ids info :
  preserves ids_advance (process_connect_info info).
Proof. unfold process_connect_info. frame ids_leaf. Qed.

#[export] Hint Resolve process_connect_info_ids : frame_db.

Section Ids.
Context (str_container : json → string).

Lemma say_send_ids message channel :
  preserves ids_advance (say_send str_container message channel).
Proof.
  intros w. unfold say_send, _send, ws_send, ask. unfold_m. cbn.
  destruct (ws w); cbn.
  - destruct (sends (outside w)) as [|a ?]; cbn.
    + eexists [_]. split; [reflexivity|]. cbn. repeat split; [lia|constructor..].
    + destruct a as [[]|e]; cbn.
      all: eexists [_; _]; split; [by rewrite <- app_assoc|].
      all: cbn; repeat split; [lia|repeat constructor|repeat constructor; lia].
  - eexists [_]. split; [reflexivity|]. cbn. repeat split; [lia|constructor..].
Qed.

Lemma get_dm_id_by_user_ids user_id :
  preserves ids_advance (get_dm_id_by_user user_id).
Proof.
  unfold get_dm_id_by_user, memoize, get_dm_id_by_user_body.
  frame_all ids_leaf.
Qed.

End Ids.

#[export] Hint Resolve say_send_ids get_dm_id_by_user_ids : frame_db.

Section AllMethodsIds.
Context (base_has : string → bool).
Context (str_container : json → string).
Context (pformat : json → string).
Context (str_float : Z → string).

Lemma reconnect_loop_ids fuel :
  preserves ids_advance (reconnect_loop base_has str_container fuel).
Proof.
  induction fuel as [|fuel IH]; simpl; [by intros w|].
  frame_all ids_leaf.
Qed.

Lemma reconnect_ids : preserves ids_advance (reconnect base_has str_container).
Proof. intros w. apply reconnect_loop_ids. Qed.

Lemma own_attrs_ids msg :
  Forall (λ p, preserves ids_advance (p.2 msg)) own_attrs.
Proof. unfold own_attrs. repeat constructor; cbn; frame_all ids_leaf. Qed.

Lemma perform_ids c :
  preserves ids_advance (perform base_has str_container pformat str_float c).
Proof.
  pose proof reconnect_ids.
  assert (∀ name h msg, own_attr name = Some h → preserves ids_advance (h msg)).
  { intros name h msg. apply (assoc_Forall (λ h, preserves ids_advance (h msg))).
    apply own_attrs_ids. }
  destruct c; simpl; frame_all ids_leaf.
Qed.

Lemma run_preserves (R : relation world) `{!PreOrder R} cs :
  (∀ c, preserves R (perform base_has str_container pformat str_float c)) →
  ∀ w, R w (run base_has str_container pformat str_float cs w).
Proof.
  intros Hc. induction cs as [|c cs IH]; intros w; simpl; [done|].
  etrans; [apply Hc|apply IH].
Qed.

End AllMethodsIds.

(** ** The reconnect loop of [read] *)

Section Reconnect.
Context (base_has : string → bool).
Context (str_container : json → string).
Context (pformat : json → string).
Context (str_float : Z → string).

Lemma authenticate_with_same_https info :
  preserves same_https (authenticate_with str_container info).
Proof. unfold authenticate_with. frame ltac:(done). Qed.

(** An attempt that is answered takes an answer off the HTTP script. *)
Lemma connect_consumes w r w' :
  connect str_container w = (r, w') → r ≠ Pending →
  (length (https (outside w')) < length (https (outside w)))%nat.
Proof.
  unfold connect, authenticate, http_get, ws_connect, ask. unfold_m. cbn.
  destruct (https (outside w)) as [|a rest] eqn:Hs; cbn.
  { intros H; inversion H; by subst. }
  set (w1 := set_trace _ _).
  assert (https (outside w1) = rest) as Hw1 by (by cbn; rewrite Hs).
  clearbody w1.
  destruct a as [info|e]; cbn.
  - pose proof (authenticate_with_same_https info w1) as Hh.
    unfold same_https in Hh. rewrite Hw1 in Hh.
    destruct (authenticate_with str_container info w1) as [[h|e|] w2];
      cbn in *.
    + destruct (opens (outside w2)) as [|[c|e] ?]; cbn;
        intros H ?; inversion H; subst; cbn; rewrite ?Hh; try done; lia.
    + intros H ?; inversion H; subst. cbn. rewrite ?Hh. lia.
    + intros H; inversion H; by subst.
  - intros H ?; inversion H; subst. cbn. lia.
Qed.

Lemma after_failures_https n w wn :
  after_failures str_container n w = Some wn →
  (length (https (outside wn)) + n ≤ length (https (outside w)))%nat.
Proof.
  revert w. induction n as [|n IH]; intros w; simpl.
  - intros [= ->]. lia.
  - destruct (connect str_container w) as [[r| |] w1] eqn:Hc; try done.
    destruct r; try done. intros Hn. apply IH in Hn. cbn in Hn.
    apply connect_consumes in Hc; [lia|done].
Qed.

Lemma reconnect_loop_after_failures n w wn fuel :
  base_has "error" = true →
  after_failures str_container n w = Some wn →
  reconnect_loop base_has str_container (n + fuel) w
  = reconnect_loop base_has str_container fuel wn.
Proof.
  intros Hb. revert w. induction n as [|n IH]; intros w; simpl.
  - by intros [= ->].
  - destruct (connect str_container w) as [[r| |] w1] eqn:Hc; try done.
    destruct r; try done. intros Hn.
    unfold mbind at 1. unfold M_bind. rewrite Hc. cbn.
    unfold call_base. rewrite Hb. unfold_m. cbn.
    rewrite <- (IH _ Hn). f_equal.
    unfold set_trace. cbn. by rewrite <- app_assoc.
Qed.

Lemma connect_same_pauses : preserves same_pauses (connect str_container).
Proof.
  unfold connect, authenticate, authenticate_with, http_get, ws_connect.
  frame pauses_leaf.
Qed.

Lemma after_failures_pauses n w wn :
  after_failures str_container n w = Some wn →
  pauses (trace wn) = pauses (trace w) ++ replicate n 300.
Proof.
  revert w. induction n as [|n IH]; intros w; simpl.
  - intros [= ->]. by rewrite app_nil_r.
  - pose proof (connect_same_pauses w) as Hp. unfold same_pauses in Hp.
    destruct (connect str_container w) as [[r| |] w1] eqn:Hc; try done.
    destruct r; try done. intros Hn. apply IH in Hn. cbn in Hn, Hp.
    rewrite Hn. unfold pauses in *. rewrite omap_app, Hp. cbn.
    by rewrite <- app_assoc.
Qed.

Lemma connect_success_ws w r w' :
  connect str_container w = (Ret r, w') → truthy r = true → is_Some (ws w').
Proof.
  unfold connect, ws_connect, ask. unfold_m.
  destruct (authenticate str_container w) as [[h|e|] w1]; cbn.
  - destruct (opens (outside w1)) as [|[c|e] ?]; cbn;
      intros H ?; inversion H; subst; by cbn.
  - intros H ?; inversion H; by subst.
  - intros H; inversion H.
Qed.

(** C5, as the code has it. When the receive is answered by a closure,
    [read] logs it and calls [connect] again and again. After an attempt
    that returned failure it calls [self.error], which this class does not
    define. With a base class that provides [error]: every failed
    attempt is followed by that call and a pause of 300, however many
    there are; the loop ends when an attempt returns success, and [read]
    then returns [None] with the new session in place, or when an attempt
    raises (the opening of the streaming session failed), and [read] then
    raises. With a base class that does not provide it: the first attempt
    decides; when it returns failure, [read] raises [AttributeError]
    without any pause. *)
Theorem read_reconnects_until_connected w h rs :
  ws w = Some h → recvs (outside w) = Fail ConnectionClosed :: rs →
  (base_has "error" = true →
   ∀ n wn, after_failures str_container n (closed w) = Some wn →
     pauses (trace wn) = pauses (trace w) ++ replicate n 300
     ∧ match connect str_container wn with
       | (Ret r, w') =>
           truthy r = true →
           read base_has str_container pformat str_float w = (Ret JNull, w')
           ∧ is_Some (ws w')
           ∧ pauses (trace w') = pauses (trace w) ++ replicate n 300
       | (Raise e, w') =>
           read base_has str_container pformat str_float w = (Raise e, w')
       | (Pending, w') =>
           read base_has str_container pformat str_float w = (Pending, w')
       end)
  ∧ (base_has "error" = false →
     match connect str_container (closed w) with
     | (Ret r, w') =>
         read base_has str_container pformat str_float w
         = (if truthy r then Ret JNull else Raise (AttributeError "error"), w')
         ∧ pauses (trace w') = pauses (trace w)
     | (Raise e, w') =>
         read base_has str_container pformat str_float w = (Raise e, w')
     | (Pending, w') =>
         read base_has str_container pformat str_float w = (Pending, w')
     end).
Proof.
  intros Hws Hr.
  assert (pauses (trace (closed w)) = pauses (trace w)) as Hcl.
  { unfold pauses. cbn. rewrite !omap_app. cbn. by rewrite !app_nil_r. }
  assert (read base_has str_container pformat str_float w
          = (reconnect base_has str_container ≫= λ _, mret JNull) (closed w))
    as ->.
  { unfold read, ws_recv, ask. unfold_m. cbn. rewrite Hws. cbn.
    rewrite Hr. cbn.
    match goal with
    | |- context [set_trace ?t (set_trace ?t' ?X)] =>
        change (set_trace t (set_trace t' X)) with (closed w)
    end.
    match goal with
    | |- context [?G (closed w)] =>
        destruct (G (closed w)) as [[[]| |] ?]
    end; done. }
  split.
  - intros Hb n wn Hn.
    pose proof (after_failures_pauses _ _ _ Hn) as Hp.
    rewrite Hcl in Hp. split; [done|].
    pose proof (after_failures_https _ _ _ Hn) as Hlen.
    unfold reconnect, mbind, M_bind.
    replace (S (length (https (outside (closed w)))))
      with (n + S (length (https (outside (closed w))) - n))%nat by lia.
    rewrite (reconnect_loop_after_failures _ _ _ _ Hb Hn). simpl.
    unfold mbind, M_bind.
    pose proof (connect_same_pauses wn) as Hpc. unfold same_pauses in Hpc.
    pose proof (connect_success_ws wn) as Hok.
    destruct (connect str_container wn) as [[r|e|] w'] eqn:Hc; cbn in *;
      [|done..].
    intros Ht. rewrite Ht. cbn. repeat split; [by eapply Hok|].
    by rewrite Hpc.
  - intros Hb. unfold reconnect. simpl. unfold call_base. rewrite Hb.
    unfold_m.
    pose proof (connect_same_pauses (closed w)) as Hpc.
    unfold same_pauses in Hpc. rewrite Hcl in Hpc.
    destruct (connect str_container (closed w)) as [[r|e|] w'] eqn:Hc;
      cbn in *; [|done..].
    by destruct (truthy r).
Qed.

End Reconnect.

(** ** The DM resolver and the message counter over a process lifetime *)

Lemma StronglySorted_lt_NoDup (l : list Z) : StronglySorted Z.lt l → NoDup l.
Proof.
  induction 1 as [|x l _ IH Hx]; constructor; [|done].
  intros Hin. rewrite Forall_forall in Hx. specialize (Hx _ Hin). lia.
Qed.

Section Lifetime.
Context (base_has : string → bool).
Context (str_container : json → string).
Context (pformat : json → string).
Context (str_float : Z → string).

(** C7: for a user not yet in the DM cache whose DM-open request the
    backend answers with a channel id, two calls of the resolver return
    that id, make the one request between them, and from then on, whatever
    the connector is called to do, the cache maps the user to that id and
    the resolver returns it without doing anything. *)
Theorem get_dm_id_by_user_once u k dt ok ch c rest w :
  to_key u = Some k → dm_memo w !! k = None →
  https (outside w) = Ok (JObj dt) :: rest →
  obj_get "ok" dt = Some ok → truthy ok = true →
  obj_get "channel" dt = Some (JObj ch) → obj_get "id" ch = Some c →
  c ≠ JNull →
  let r1 := get_dm_id_by_user u w in
  let r2 := get_dm_id_by_user u (snd r1) in
  fst r1 = Ret c ∧ fst r2 = Ret c
  ∧ trace (snd r2)
    = trace w ++ [HttpGet "https://slack.com/api/im.open"
                    [("token", JStr (token w)); ("user", u)]]
  ∧ https (outside (snd r2)) = rest
  ∧ ∀ cs, let w' := run base_has str_container pformat str_float cs (snd r2) in
      dm_memo w' !! k = Some c ∧ get_dm_id_by_user u w' = (Ret c, w').
Proof.
  intros Hk Hnone Hs Hok Ht Hch Hid Hc.
  assert (∀ w', dm_memo w' !! k = Some c →
                get_dm_id_by_user u w' = (Ret c, w')) as Hhit.
  { intros w' Hm. unfold get_dm_id_by_user, memoize. unfold_m. cbn.
    rewrite Hk. cbn. by rewrite Hm. }
  assert (∃ w1, get_dm_id_by_user u w = (Ret c, w1)
                ∧ dm_memo w1 !! k = Some c
                ∧ trace w1 = trace w ++ [HttpGet "https://slack.com/api/im.open"
                                           [("token", JStr (token w)); ("user", u)]]
                ∧ https (outside w1) = rest) as (w1 & Hw1 & Hm1 & Ht1 & Hs1).
  { unfold get_dm_id_by_user, memoize, get_dm_id_by_user_body, http_get, ask.
    unfold_m. cbn. rewrite Hk. cbn. rewrite Hnone. cbn. rewrite Hs. cbn.
    rewrite Hok. cbn. rewrite Ht. cbn. rewrite Hch. cbn. rewrite Hid. cbn.
    destruct c; try done; cbn; eexists; (split; [reflexivity|]); cbn;
      rewrite lookup_insert_eq, Hs; done. }
  cbn zeta. rewrite Hw1. cbn. rewrite (Hhit _ Hm1). cbn.
  repeat split; try done.
  - pose proof (run_preserves base_has str_container pformat str_float memo_grows cs
                  (perform_memo base_has str_container pformat str_float) w1) as Hsub.
    by eapply lookup_weaken.
  - apply Hhit.
    pose proof (run_preserves base_has str_container pformat str_float memo_grows cs
                  (perform_memo base_has str_container pformat str_float) w1) as Hsub.
    by eapply lookup_weaken.
Qed.

(** What [say_send] leaves behind: the counter up by one and at most one
    frame, carrying the new value. *)
Lemma say_send_step message channel w :
  let w' := snd (say_send str_container message channel w) in
  let frame := JObj [("id", JNum (_internal_msgid w + 1));
                     ("type", JStr "message"); ("channel", channel);
                     ("text", JStr (py_str str_container message))] in
  _internal_msgid w' = _internal_msgid w + 1
  ∧ (frames (trace w') = frames (trace w)
     ∨ frames (trace w') = frames (trace w) ++ [frame]).
Proof.
  unfold say_send, _send, ws_send, ask. unfold_m. cbn.
  destruct (ws w); cbn.
  - destruct (sends (outside w)) as [|a ?]; cbn.
    + split; [done|left]. by rewrite frames_app, app_nil_r.
    + destruct a as [[]|e]; cbn; (split; [done|right]).
      all: by rewrite !frames_app, app_nil_r.
  - split; [done|left]. by rewrite frames_app, app_nil_r.
Qed.

(** C8: over any sequence of calls from any world, the message frames
    written carry strictly increasing, hence distinct, ids, all above the
    value the counter started from and none above its final value; a call
    of [say] leaves the counter as it was, writing nothing, or takes it up
    by exactly one and writes at most the frame with the new value; and
    [connect] and the reconnect loop leave the counter alone, which
    [__init__] alone sets, to zero. *)
Theorem message_ids_strictly_increase :
  (∀ cs w0, ∃ t,
      trace (run base_has str_container pformat str_float cs w0) = trace w0 ++ t
      ∧ StronglySorted Z.lt (message_ids t)
      ∧ NoDup (message_ids t)
      ∧ Forall (λ i, _internal_msgid w0 < i
                     ≤ _internal_msgid (run base_has str_container pformat str_float cs w0))
          (message_ids t))
  ∧ (∀ message destination w,
      let w' := snd (say str_container message destination w) in
      (_internal_msgid w' = _internal_msgid w
       ∧ frames (trace w') = frames (trace w))
      ∨ (_internal_msgid w' = _internal_msgid w + 1
         ∧ (frames (trace w') = frames (trace w)
            ∨ ∃ channel,
                frames (trace w')
                = frames (trace w)
                  ++ [JObj [("id", JNum (_internal_msgid w + 1));
                            ("type", JStr "message"); ("channel", channel);
                            ("text", JStr (py_str str_container message))]])))
  ∧ (∀ w, _internal_msgid (snd (connect str_container w)) = _internal_msgid w)
  ∧ (∀ w, _internal_msgid (snd (reconnect base_has str_container w))
          = _internal_msgid w)
  ∧ (∀ tok e, _internal_msgid (init tok e) = 0).
Proof.
  repeat split.
  - intros cs w0.
    destruct (run_preserves base_has str_container pformat str_float ids_advance cs
                (perform_ids base_has str_container pformat str_float) w0)
      as (t & Ht & _ & Hs & Hb).
    exists t. repeat split; [done..| |done].
    by apply StronglySorted_lt_NoDup.
  - intros message destination w. cbn zeta. unfold say, mbind, M_bind.
    destruct (say_destination_quiet destination w) as [Hf Hm].
    destruct (say_destination destination w) as [[[c|]|e|] w1]; cbn in *;
      [|by left..].
    destruct (say_send_step message c w1) as [Hm' Hf'].
    right. rewrite Hm in Hf'. rewrite Hm', Hm. split; [done|].
    destruct Hf' as [->| ->]; rewrite Hf; [by left|right; by exists c].
  - intros w. apply (connect_quiet str_container w).
  - intros w. apply (reconnect_loop_quiet base_has str_container _ w).
Qed.

End Lifetime.
(** ** The records that the cache shares with the payload *)

#[global] Instance keeps_preorder P : PreOrder (keeps P).
Proof. split; [by intros ? ?|]. intros w1 w2 w3 H1 H2 ?. by apply H2, H1. Qed.

Ltac keeps_leaf := let H := fresh in intros H; exact H.

Lemma coherent_empty w : in_info w = ∅ → coherent w.
Proof.
  intros He. split.
  - intros k i. by rewrite He, lookup_empty.
  - intros k k' i. by rewrite He, lookup_empty.
Qed.

Lemma payload_users_set i r info us :
  payload_users info = Some us →
  payload_users (info_set_user i r info) = Some (<[i:=r]> us).
Proof.
  unfold payload_users, info_set_user.
  destruct info as [| | | | |o]; try done.
  destruct (obj_get "users" o) as [[| | | |us'|]|] eqn:Ho; try done.
  intros [= ->]. by rewrite obj_get_set_eq.
Qed.

(** Line 289 on a record: the change is made in one place. *)
Lemma coherent_mutate k r w : coherent w → coherent (mutate_user k r w).
Proof.
  intros [Hc Hinj]. unfold mutate_user.
  destruct (in_info w !! k) as [i|] eqn:Hk.
  - destruct (Hc k i Hk) as (r0 & us & Hus & Hi & Hr0).
    split; [|exact Hinj]. intros k' i' Hk'. cbn in *.
    exists (if decide (k' = k) then r else default r (user_map w !! k')).
    exists (<[i:=r]> us). split; [by apply payload_users_set|].
    destruct (decide (k' = k)) as [->|Hne].
    + rewrite Hk in Hk'. injection Hk' as <-.
      rewrite lookup_insert_eq. split; [|done].
      apply list_lookup_insert_eq. by eapply lookup_lt_Some.
    + destruct (Hc k' i' Hk') as (r1 & us1 & Hus1 & Hi1 & Hr1).
      rewrite Hus in Hus1. injection Hus1 as <-.
      rewrite lookup_insert_ne by done. rewrite Hr1. cbn. split; [|done].
      rewrite list_lookup_insert_ne; [done|].
      intros ->. apply Hne. by eapply Hinj.
  - split; [|exact Hinj]. intros k' i' Hk'. cbn in *.
    destruct (Hc k' i' Hk') as (r1 & us1 & Hus1 & Hi1 & Hr1).
    exists r1, us1. repeat split; [done..|].
    rewrite lookup_insert_ne; [done|]. intros ->. congruence.
Qed.

(** Line 260: the record of the event takes the place of the entry. *)
Lemma coherent_forget k r w :
  coherent w →
  coherent (set_in_info (delete k (in_info w))
              (set_user_map (<[k:=r]> (user_map w)) w)).
Proof.
  intros [Hc Hinj]. split; cbn.
  - intros k' i. rewrite lookup_delete_Some. intros [Hne Hk'].
    destruct (Hc k' i Hk') as (r1 & us1 & Hus1 & Hi1 & Hr1).
    exists r1, us1. repeat split; [done..|]. by rewrite lookup_insert_ne.
  - intros k1 k2 i. rewrite !lookup_delete_Some. intros [_ ?] [_ ?].
    by eapply Hinj.
Qed.

(** Line 202: the entry at position [j] becomes a record of the cache. *)
Lemma coherent_seed k j u us w :
  payload_users (_info w) = Some us → us !! j = Some u →
  coherent w → entries_below j w →
  coherent (set_in_info (<[k:=j]> (in_info w))
              (set_user_map (<[k:=u]> (user_map w)) w))
  ∧ entries_below (S j)
      (set_in_info (<[k:=j]> (in_info w))
         (set_user_map (<[k:=u]> (user_map w)) w)).
Proof.
  intros Hus Hu [Hc Hinj] Hb. split; [split|]; cbn.
  - intros k' i. destruct (decide (k' = k)) as [->|Hne].
    + rewrite lookup_insert_eq. intros [= <-]. exists u, us.
      by rewrite lookup_insert_eq.
    + rewrite lookup_insert_ne by done. intros Hk'.
      destruct (Hc k' i Hk') as (r1 & us1 & Hus1 & Hi1 & Hr1).
      exists r1, us1. by rewrite lookup_insert_ne.
  - intros k1 k2 i H1 H2.
    destruct (decide (k1 = k)) as [->|Hn1], (decide (k2 = k)) as [->|Hn2];
      [done|..].
    + rewrite lookup_insert_eq in H1. injection H1 as <-.
      rewrite lookup_insert_ne in H2 by done. apply Hb in H2. lia.
    + rewrite lookup_insert_eq in H2. injection H2 as <-.
      rewrite lookup_insert_ne in H1 by done. apply Hb in H1. lia.
    + rewrite lookup_insert_ne in H1, H2 by done. by eapply Hinj.
  - intros k' i. cbn. destruct (decide (k' = k)) as [->|Hne].
    + rewrite lookup_insert_eq. intros [= <-]. lia.
    + rewrite lookup_insert_ne by done. intros Hk'. apply Hb in Hk'. lia.
Qed.

Lemma snd_bind {A B} (P : world → Prop) (m : M A) (f : A → M B) w :
  (∀ a w1, m w = (Ret a, w1) → P (snd (f a w1))) →
  (∀ r w1, m w = (r, w1) → (∀ a, r ≠ Ret a) → P w1) →
  P (snd ((m ≫= f) w)).
Proof.
  intros Hr Hn. unfold mbind, M_bind.
  destruct (m w) as [[a|e|] w1] eqn:Hm; cbn; [by apply Hr|..].
  all: by eapply Hn.
Qed.

Lemma snd_bind_keeps {A B} (P Q : world → Prop) (m : M A) (f : A → M B) w :
  preserves (keeps P) m →
  (∀ a w1, P w1 → Q (snd (f a w1))) → (∀ w1, P w1 → Q w1) →
  P w → Q (snd ((m ≫= f) w)).
Proof.
  intros Hm Hf Hq Hw. specialize (Hm w Hw). apply snd_bind.
  - intros a w1 H. rewrite H in Hm. by apply Hf.
  - intros r w1 H _. rewrite H in Hm. by apply Hq.
Qed.

(** One round of the loop of lines 201-203. *)
Lemma seed_user_coherent j u r w w1 :
  (∀ o, u = JObj o →
     ∃ us, payload_users (_info w) = Some us ∧ us !! j = Some u) →
  coherent w → entries_below j w →
  (id ← subscript u "id"; k ← hashable id;
   modify (λ w, set_in_info (<[k:=j]> (in_info w))
                  (set_user_map (<[k:=u]> (user_map w)) w));;
   id ← subscript u "id"; name ← subscript u "name";
   kn ← hashable name;
   modify (λ w, set_user_nick_to_id (<[kn:=id]> (user_nick_to_id w)) w)) w
  = (r, w1) →
  _info w1 = _info w ∧ coherent w1 ∧ entries_below (S j) w1.
Proof.
  intros Hu Hc Hb.
  assert (entries_below (S j) w) as Hb'.
  { intros k i Hk. apply Hb in Hk. lia. }
  unfold_m. destruct u as [| | | | |o]; cbn;
    try (intros H; inversion H; by subst).
  destruct (Hu o eq_refl) as (us & Hus & Hj).
  destruct (obj_get "id" o) as [id|]; cbn;
    [|intros H; inversion H; by subst].
  destruct (to_key id) as [k|]; cbn; [|intros H; inversion H; by subst].
  destruct (coherent_seed k j (JObj o) us w Hus Hj Hc Hb) as [Hc1 Hb1].
  destruct (obj_get "name" o) as [name|]; cbn;
    [|intros H; inversion H; by subst].
  destruct (to_key name) as [kn|]; cbn; intros H; inversion H; by subst.
Qed.

Lemma users_loop_coherent l j w :
  (∀ n o, l !! n = Some (JObj o) →
     ∃ us, payload_users (_info w) = Some us
           ∧ us !! (j + n)%nat = Some (JObj o)) →
  coherent w → entries_below j w →
  coherent
    (snd (for_each (imap (λ n u, ((j + n)%nat, u)) l) (λ iu,
      id ← subscript iu.2 "id"; k ← hashable id;
      modify (λ w, set_in_info (<[k:=iu.1]> (in_info w))
                     (set_user_map (<[k:=iu.2]> (user_map w)) w));;
      id ← subscript iu.2 "id"; name ← subscript iu.2 "name";
      kn ← hashable name;
      modify (λ w, set_user_nick_to_id (<[kn:=id]> (user_nick_to_id w)) w))
      w)).
Proof.
  revert j w. induction l as [|u l IH]; intros j w Hl Hc Hb; [done|].
  cbn [imap for_each].
  assert (∀ r w1,
    (id ← subscript u "id"; k ← hashable id;
     modify (λ w, set_in_info (<[k:=(j + 0)%nat]> (in_info w))
                    (set_user_map (<[k:=u]> (user_map w)) w));;
     id ← subscript u "id"; name ← subscript u "name";
     kn ← hashable name;
     modify (λ w, set_user_nick_to_id (<[kn:=id]> (user_nick_to_id w)) w)) w
    = (r, w1) →
    _info w1 = _info w ∧ coherent w1 ∧ entries_below (S j) w1) as Hstep.
  { intros r w1. rewrite Nat.add_0_r.
    apply seed_user_coherent; [|done..].
    intros o ->. specialize (Hl 0%nat o eq_refl).
    by rewrite Nat.add_0_r in Hl. }
  apply snd_bind.
  - intros [] w1 H1. destruct (Hstep _ _ H1) as (Hi & Hc1 & Hb1).
    rewrite (imap_ext _ (λ n u, ((S j + n)%nat, u))).
    2:{ intros n x _. cbn. f_equal. lia. }
    apply IH; [|done..]. intros n o Hn. rewrite Hi.
    specialize (Hl (S n) o Hn).
    by replace (S j + n)%nat with (j + S n)%nat by lia.
  - intros r w1 H1 _. by destruct (Hstep _ _ H1) as (_ & ? & _).
Qed.

Lemma chars_no_object s n o : chars s !! n = Some (JObj o) → False.
Proof.
  revert n. induction s as [|a s IH]; intros [|n]; cbn; try done. apply IH.
Qed.

Lemma keys_no_object (l : list string) n o :
  (JStr <$> l) !! n = Some (JObj o) → False.
Proof. rewrite list_lookup_fmap. by destruct (l !! n). Qed.

(** What [iterate] gives of the [users] of the payload: its objects are
    the entries of the payload, at their positions. *)
Lemma iterate_users o w us w1 n o' :
  _info w = JObj o →
  iterate (default (JArr []) (obj_get "users" o)) w = (Ret us, w1) →
  us !! n = Some (JObj o') →
  w1 = w ∧ ∃ full, payload_users (_info w) = Some full
                   ∧ full !! (0 + n)%nat = Some (JObj o').
Proof.
  intros Hi. unfold payload_users. rewrite Hi.
  destruct (obj_get "users" o) as [[|b|z|s|l|o2]|]; cbn;
    intros H; inversion H; subst; try done.
  - intros Hn. by apply chars_no_object in Hn.
  - intros Hn. split; [done|]. eauto.
  - intros Hn. by apply keys_no_object in Hn.
Qed.

(** The bootstrap on a payload just stored. *)
Lemma process_connect_info_coherent info w :
  coherent w → entries_below 0 w →
  coherent (snd (process_connect_info info w)).
Proof.
  intros Hc Hb. unfold process_connect_info.
  destruct (truthy info); cbn [negb]; [|done].
  match goal with
  | |- context [(try_except ?A ?P ?h ≫= _) w] =>
      assert (preserves (keeps (λ w, coherent w ∧ entries_below 0 w))
                (try_except A P h)) as Hself by frame keeps_leaf
  end.
  apply snd_bind.
  2:{ intros r wa Ha _. specialize (Hself w). rewrite Ha in Hself.
      by apply Hself. }
  intros [] wa Ha. specialize (Hself w). rewrite Ha in Hself.
  destruct (Hself (conj Hc Hb)) as [Hca Hba]. clear Hself.
  apply snd_bind; [|by intros r w1 [= <- <-]].
  intros i w1 [= <- <-].
  destruct (_info wa) as [| | | | |o] eqn:Hi; try done.
  apply snd_bind; [|by intros r w1 [= <- <-]].
  intros users w1 [= <- <-].
  apply snd_bind.
  2:{ intros r w1 H _.
      destruct (default (JArr []) (obj_get "users" o));
        inversion H; by subst. }
  intros us w1 Hit.
  assert (w1 = wa) as ->.
  { destruct (default (JArr []) (obj_get "users" o));
      inversion Hit; by subst. }
  match goal with
  | |- context [(for_each ?l ?b ≫= ?R) wa] =>
      assert (coherent (snd (for_each l b wa))) as Hloop;
      [|assert (preserves (keeps coherent) (R ())) as HR
          by frame keeps_leaf]
  end.
  { apply (users_loop_coherent us 0 wa); [|done..].
    intros n o' Hn.
    by destruct (iterate_users o wa us wa n o' Hi Hit Hn). }
  apply snd_bind.
  - intros [] w1 H1. rewrite H1 in Hloop. by apply HR.
  - intros r w1 H1 _. by rewrite H1 in Hloop.
Qed.

Lemma on_user_change_coherent msg :
  preserves (keeps coherent) (on_user_change msg).
Proof.
  unfold on_user_change, del_user_nick.
  frame ltac:(let H := fresh in
              intros H; first [exact H | by apply coherent_forget]).
Qed.

Lemma on_presence_change_coherent msg :
  preserves (keeps coherent) (on_presence_change msg).
Proof.
  unfold on_presence_change.
  repeat first
    [ lazymatch goal with
      | |- preserves _ (modify (mutate_user _ _)) =>
          apply preserves_modify; intros ? ?; by apply coherent_mutate
      end
    | frame_step keeps_leaf ].
Qed.

Lemma get_dm_id_by_user_coherent user_id :
  preserves (keeps coherent) (get_dm_id_by_user user_id).
Proof.
  unfold get_dm_id_by_user, memoize, get_dm_id_by_user_body.
  frame_all keeps_leaf.
Qed.

#[export] Hint Resolve on_user_change_coherent on_presence_change_coherent
  get_dm_id_by_user_coherent : frame_db.

Section Shared.
Context (base_has : string → bool).
Context (str_container : json → string).
Context (pformat : json → string).
Context (str_float : Z → string).

(** A payload just decoded shares nothing with the cache; the bootstrap
    then stores its entries. *)
Lemma authenticate_with_coherent info w :
  coherent (snd (authenticate_with str_container info w)).
Proof.
  unfold authenticate_with.
  apply snd_bind; [|by intros r w1 [= <- <-]].
  intros [] w0 H0.
  assert (coherent w0 ∧ entries_below 0 w0) as HJ.
  { inversion H0. split; [by apply coherent_empty|]. intros k i. cbn.
    by rewrite lookup_empty. }
  clear H0. revert HJ.
  repeat (apply (snd_bind_keeps (λ w, coherent w ∧ entries_below 0 w));
          [by frame keeps_leaf| |by intros ? []]; intros ? ?).
  intros [Hc Hb].
  match goal with
  | |- context [(process_connect_info ?i ≫= ?R) ?w0] =>
      pose proof (process_connect_info_coherent i w0 Hc Hb) as Hp;
      assert (preserves (keeps coherent) (R ())) as HR by frame keeps_leaf
  end.
  apply snd_bind.
  - intros [] wp H1. rewrite H1 in Hp. by apply HR.
  - intros r wp H1 _. by rewrite H1 in Hp.
Qed.

Lemma authenticate_coherent :
  preserves (keeps coherent) (authenticate str_container).
Proof.
  assert (∀ info, preserves (keeps coherent)
                    (authenticate_with str_container info)).
  { intros info w _. apply authenticate_with_coherent. }
  unfold authenticate, http_get. frame keeps_leaf.
Qed.

Lemma connect_coherent : preserves (keeps coherent) (connect str_container).
Proof.
  pose proof authenticate_coherent.
  unfold connect, ws_connect. frame keeps_leaf.
Qed.

Lemma reconnect_loop_coherent fuel :
  preserves (keeps coherent) (reconnect_loop base_has str_container fuel).
Proof.
  pose proof connect_coherent.
  induction fuel as [|fuel IH]; simpl; [by intros w|].
  unfold call_base. frame keeps_leaf.
Qed.

Lemma reconnect_coherent :
  preserves (keeps coherent) (reconnect base_has str_container).
Proof. intros w. apply reconnect_loop_coherent. Qed.

Lemma own_attrs_coherent msg :
  Forall (λ p, preserves (keeps coherent) (p.2 msg)) own_attrs.
Proof.
  unfold own_attrs.
  repeat (apply Forall_cons_2;
          [cbn [snd];
           first [apply on_user_change_coherent
                 |apply on_presence_change_coherent
                 |frame_all keeps_leaf]|]).
  apply Forall_nil_2.
Qed.

Lemma perform_coherent c :
  preserves (keeps coherent)
    (perform base_has str_container pformat str_float c).
Proof.
  pose proof reconnect_coherent. pose proof connect_coherent.
  pose proof authenticate_coherent.
  assert (∀ name h msg, own_attr name = Some h →
                        preserves (keeps coherent) (h msg)).
  { intros name h msg.
    apply (assoc_Forall (λ h, preserves (keeps coherent) (h msg))).
    apply own_attrs_coherent. }
  destruct c; simpl;
    repeat first
      [ frame_step keeps_leaf
      | progress unfold say, say_send, say_destination, process_message,
          route, read, do_ping, start_ping, _send, call_attr, call_base,
          ws_recv, ws_send ].
Qed.

(** In every world a run reaches from a new connector, a record of the
    cache that is an entry of the payload is that entry. *)
Lemma run_coherent cs tok e :
  coherent (run base_has str_container pformat str_float cs (init tok e)).
Proof.
  apply (run_preserves base_has str_container pformat str_float
           (keeps coherent) cs perform_coherent).
  by apply coherent_empty.
Qed.

End Shared.

Lemma online_coherent e : coherent (online e).
Proof.
  unfold online.
  assert (∀ w, coherent w → coherent (set_outside e w)) as Ho by done.
  apply Ho. apply connect_coherent. by apply coherent_empty.
Qed.
(** ** [on_presence_change] *)

Section Presence.
Context (base_has : string → bool).
Context (str_container : json → string).
Context (pformat : json → string).
Context (str_float : Z → string).

(** C2, as the code has it. For a user the cache holds,
    [on_presence_change] returns and sets the [presence] field of that
    user's record, every other field and every other record staying as
    they were; the record is changed in place, so when it is an entry of
    the session payload, that entry of [self._info] has the new presence
    as well; every other attribute stays. For a user the cache does not
    hold it raises [KeyError] and changes nothing, and [read], which calls
    the handler for a [presence_change] event, raises it in turn. *)
Theorem on_presence_change_updates_presence_only w m u p k :
  obj_get "user" m = Some u → obj_get "presence" m = Some p →
  to_key u = Some k → coherent w →
  match user_map w !! k with
  | Some (JObj o) =>
      let r' := JObj (obj_set "presence" p o) in
      obj_get "presence" (obj_set "presence" p o) = Some p
      ∧ (∀ f, f ≠ "presence" → obj_get f (obj_set "presence" p o) = obj_get f o)
      ∧ (∀ k', k' ≠ k → (<[k:=r']> (user_map w)) !! k' = user_map w !! k')
      ∧ match in_info w !! k with
        | Some i =>
            ∃ io us,
              _info w = JObj io ∧ obj_get "users" io = Some (JArr us)
              ∧ us !! i = Some (JObj o)
              ∧ on_presence_change (JObj m) w
                = (Ret (),
                   update_info
                     (JObj (obj_set "users" (JArr (<[i:=r']> us)) io))
                     (set_user_map (<[k:=r']> (user_map w)) w))
        | None =>
            on_presence_change (JObj m) w
            = (Ret (), set_user_map (<[k:=r']> (user_map w)) w)
        end
  | Some _ => on_presence_change (JObj m) w = (Raise TypeError, w)
  | None =>
      on_presence_change (JObj m) w = (Raise (KeyError u), w)
      ∧ (∀ h rest,
           ws w = Some h → recvs (outside w) = Ok (JObj m) :: rest →
           obj_get "type" m = Some (JStr "presence_change") →
           obj_get "subtype" m = None →
           read base_has str_container pformat str_float w
           = (Raise (KeyError u), received w))
  end.
Proof.
  intros Hu Hp Hk [Hc _].
  destruct (user_map w !! k) as [r|] eqn:Hr.
  - destruct r as [| | | | |o].
    1-5: unfold on_presence_change; unfold_m; cbn;
         rewrite Hp, Hu, Hk; cbn; by rewrite Hr.
    cbn zeta. split; [apply obj_get_set_eq|].
    split; [intros f Hf; by apply obj_get_set_ne|].
    split; [intros k' Hk'; by rewrite lookup_insert_ne|].
    assert (on_presence_change (JObj m) w
            = (Ret (), mutate_user k (JObj (obj_set "presence" p o)) w))
      as ->.
    { unfold on_presence_change. unfold_m. cbn.
      rewrite Hp, Hu, Hk. cbn. by rewrite Hr. }
    unfold mutate_user.
    destruct (in_info w !! k) as [i|] eqn:Hi; [|done].
    destruct (Hc k i Hi) as (r0 & us & Hus & Hi0 & Hr0).
    rewrite Hr in Hr0. injection Hr0 as <-.
    unfold payload_users in Hus.
    destruct (_info w) as [| | | | |io] eqn:Hinfo; try done.
    destruct (obj_get "users" io) as [[| | | |us'|]|] eqn:Hio; try done.
    injection Hus as ->. exists io, us. repeat split; [done..|].
    unfold info_set_user. by rewrite Hio.
  - split.
    { unfold on_presence_change. unfold_m. cbn.
      rewrite Hp, Hu, Hk. cbn. by rewrite Hr. }
    intros h rest Hws Hrecv Hty Hst.
    assert (hasattr base_has "on_presence_change" = true) as Hha
      by reflexivity.
    assert (call_attr base_has "on_presence_change" = on_presence_change)
      as Hca by reflexivity.
    assert (on_presence_change (JObj m) (received w)
            = (Raise (KeyError u), received w)) as Hon.
    { unfold on_presence_change. unfold_m. cbn.
      rewrite Hp, Hu, Hk. cbn. by rewrite Hr. }
    unfold read, ws_recv, ask, try_except. unfold_m.
    rewrite Hws. cbn -[route]. rewrite Hrecv. cbn -[route].
    fold (received w).
    unfold route. unfold_m. cbn -[hasattr call_attr process_message].
    rewrite Hty, Hst. cbn -[hasattr call_attr process_message].
    assert (bool_decide ("presence_change" = "message") = false) as ->
      by done.
    destruct (bool_decide (is_Some (obj_get "reply_to" m)));
      cbn -[hasattr call_attr process_message].
    all: change ("on_" +:+ "presence_change") with "on_presence_change".
    all: rewrite Hha, Hca, Hon; done.
Qed.

End Presence.

Lemma on_presence_change_updates_presence_only_witness :
  (user_map (online quiet) !! KStr "U1" = Some alice
   ∧ in_info (online quiet) !! KStr "U1" = Some 0%nat
   ∧ payload_users
       (_info (snd (on_presence_change alice_active (online quiet))))
     = Some [JObj (obj_set "presence" (JStr "active") (fields_of alice));
             hubbot; buildbot])
  ∧ (∃ io us,
       _info (online quiet) = JObj io ∧ obj_get "users" io = Some (JArr us)
       ∧ us !! 0%nat = Some (JObj (fields_of alice))
       ∧ on_presence_change (JObj (fields_of alice_active)) (online quiet)
         = (Ret (),
            update_info
              (JObj (obj_set "users"
                       (JArr (<[0%nat:=JObj (obj_set "presence" (JStr "active")
                                               (fields_of alice))]> us))
                       io))
              (set_user_map
                 (<[KStr "U1":=JObj (obj_set "presence" (JStr "active")
                                       (fields_of alice))]>
                    (user_map (online quiet)))
                 (online quiet))))
  ∧ (user_map (online stranger_announced) !! KStr "U9" = None
     ∧ read no_base plain plain dotted (online stranger_announced)
       = (Raise (KeyError (JStr "U9")), received (online stranger_announced))).
Proof.
  split; [|split].
  - split; [vm_compute; reflexivity|]. split; vm_compute; reflexivity.
  - pose proof (on_presence_change_updates_presence_only no_base plain plain
      dotted (online quiet) (fields_of alice_active) (JStr "U1")
      (JStr "active") (KStr "U1") eq_refl eq_refl eq_refl
      (online_coherent quiet)) as H.
    assert (user_map (online quiet) !! KStr "U1"
            = Some (JObj (fields_of alice))) as Hu
      by (vm_compute; reflexivity).
    rewrite Hu in H. cbv beta iota zeta in H. destruct H as (_ & _ & _ & H).
    assert (in_info (online quiet) !! KStr "U1" = Some 0%nat) as Hs
      by (vm_compute; reflexivity).
    rewrite Hs in H. exact H.
  - split; [vm_compute; reflexivity|].
    pose proof (on_presence_change_updates_presence_only no_base plain plain
      dotted (online stranger_announced) (fields_of stranger_active)
      (JStr "U9") (JStr "active") (KStr "U9") eq_refl eq_refl eq_refl
      (online_coherent stranger_announced)) as H.
    assert (user_map (online stranger_announced) !! KStr "U9" = None) as Hu
      by (vm_compute; reflexivity).
    rewrite Hu in H. destruct H as [_ H].
    exact (H 1%nat [] ltac:(vm_compute; reflexivity)
             ltac:(vm_compute; reflexivity) eq_refl eq_refl).
Defined.

(** C2 fails as stated: a presence change for an unknown user raises
    [KeyError], out of the handler and out of [read]. *)
Lemma on_presence_change_unknown_user_raises :
  let w := online {| https := []; opens := []; recvs := [Ok stranger_active];
                     sends := []; clock := [] |} in
  user_map w !! KStr "U9" = None
  ∧ on_presence_change stranger_active w = (Raise (KeyError (JStr "U9")), w)
  ∧ fst (read no_base plain plain dotted w) = Raise (KeyError (JStr "U9")).
Proof. by vm_compute. Qed.


(** * The theorems at sample sessions *)

Lemma say_drops_bot_or_deleted_witness :
  let w := online (dm_then_write "D3" (Ok ())) in
  let r := say plain (JStr "hi") (JStr "buildbot") w in
  (is_substring "#" "buildbot" = false
   ∧ user_nick_to_id w !! KStr "buildbot" = Some (JStr "U3")
   ∧ user_map w !! KStr "U3" = Some buildbot
   ∧ frames (trace (snd r)) = frames (trace w)
   ∧ _internal_msgid (snd r) = _internal_msgid w
   ∧ outside (snd r) = outside w
   ∧ fst r = Ret JNull)
  ∧ (user_nick_to_id haunted !! KStr "ghost" = Some (JStr "U4")
     ∧ user_map haunted !! KStr "U4" = Some ghost
     ∧ obj_get "deleted" (fields_of ghost) = None
     ∧ say plain (JStr "hi") (JStr "ghost") haunted
       = (Raise (KeyError (JStr "deleted")), haunted)).
Proof.
  cbn zeta. split.
  - do 3 (split; [by vm_compute|]).
    pose proof (say_drops_bot_or_deleted plain (JStr "hi") "buildbot"
      (JStr "U3") (KStr "U3") (fields_of buildbot)
      (online (dm_then_write "D3" (Ok ())))
      ltac:(by vm_compute) ltac:(by vm_compute) eq_refl ltac:(by vm_compute)
      (or_intror (ex_intro _ (JBool true) (conj eq_refl eq_refl))))
      as (H1 & H2 & H3 & H4).
    split; [exact H1|]. split; [exact H2|]. split; [exact H3|exact H4].
  - do 3 (split; [by vm_compute|]).
    pose proof (say_drops_bot_or_deleted plain (JStr "hi") "ghost"
      (JStr "U4") (KStr "U4") (fields_of ghost) haunted
      ltac:(by vm_compute) ltac:(by vm_compute) eq_refl ltac:(by vm_compute)
      (or_intror (ex_intro _ (JBool true) (conj eq_refl eq_refl))))
      as (_ & _ & _ & H4).
    apply injective_projections; [exact H4|vm_compute; reflexivity].
Defined.

(** C3 fails as stated: [hub#bot] is in the user name index, its record
    has [is_bot] true, and [say] writes the frame and takes the
    sequence id. *)
Lemma say_writes_to_bot_with_hash_in_name :
  let w := online (dm_then_write "D2" (Ok ())) in
  let r := say plain (JStr "hi") (JStr "hub#bot") w in
  user_nick_to_id w !! KStr "hub#bot" = Some (JStr "U2")
  ∧ user_map w !! KStr "U2" = Some hubbot
  ∧ obj_get "is_bot" (fields_of hubbot) = Some (JBool true)
  ∧ frames (trace w) = []
  ∧ frames (trace (snd r))
    = [JObj [("id", JNum 1); ("type", JStr "message");
             ("channel", JStr "D2"); ("text", JStr "hi")]]
  ∧ _internal_msgid w = 0 ∧ _internal_msgid (snd r) = 1.
Proof. by vm_compute. Qed.

Lemma say_skips_checks_when_hash_inside_witness :
  let w := online (dm_then_write "D2" (Ok ())) in
  let r := say plain (JStr "hi") (JStr "hub#bot") w in
  startswith "#" "hub#bot" = false ∧ is_substring "#" "hub#bot" = true
  ∧ user_nick_to_id w !! KStr "hub#bot" = Some (JStr "U2")
  ∧ user_map w !! KStr "U2" = Some hubbot
  ∧ frames (trace (snd r))
    = frames (trace w)
      ++ [JObj [("id", JNum (_internal_msgid w + 1)); ("type", JStr "message");
                ("channel", JStr "D2");
                ("text", JStr (py_str plain (JStr "hi")))]]
  ∧ _internal_msgid (snd r) = _internal_msgid w + 1
  ∧ fst r = Ret JNull.
Proof.
  cbn zeta. do 4 (split; [by vm_compute|]).
  pose proof (say_skips_checks_when_hash_inside plain (JStr "hi") "hub#bot"
    (JStr "U2") (JStr "D2") (online (dm_then_write "D2" (Ok ())))
    (snd (get_dm_id_by_user (JStr "U2") (online (dm_then_write "D2" (Ok ())))))
    1%nat (Ok ()) []
    ltac:(by vm_compute) ltac:(by vm_compute) ltac:(by vm_compute)
    ltac:(by vm_compute) ltac:(by vm_compute) ltac:(by vm_compute))
    as (H1 & H2 & H3).
  split; [exact H1|]. split; [exact H2|exact H3].
Defined.

Lemma authenticate_outcome_witness :
  let e r := {| https := [Ok r]; opens := []; recvs := []; sends := [];
                clock := [] |} in
  https (outside (init "xoxb" (e refused))) = [Ok refused]
  ∧ fst (authenticate plain (init "xoxb" (e refused)))
    = Raise (Exception_ "Slack Error: invalid_auth")
  ∧ fst (authenticate plain (init "xoxb" (e session)))
    = Ret (JStr "wss://example.test/rtm").
Proof.
  cbn zeta. split; [reflexivity|]. split.
  - pose proof (authenticate_outcome plain (fields_of refused) []
      (init "xoxb" {| https := [Ok refused]; opens := []; recvs := [];
                      sends := []; clock := [] |}) eq_refl) as H.
    cbn zeta in H.
    assert (truthy (default (JBool true) (obj_get "ok" (fields_of refused)))
            = false) as Ht by reflexivity.
    rewrite Ht in H. rewrite H. by vm_compute.
  - pose proof (authenticate_outcome plain (fields_of session) []
      (init "xoxb" {| https := [Ok session]; opens := []; recvs := [];
                      sends := []; clock := [] |}) eq_refl) as H.
    cbn zeta in H.
    assert (truthy (default (JBool true) (obj_get "ok" (fields_of session)))
            = true) as Ht by reflexivity.
    rewrite Ht in H. erewrite H; [by vm_compute|]. by vm_compute.
Defined.

Lemma get_dm_id_by_user_once_witness :
  let w := online (dm_then_write "D1" (Ok ())) in
  let r1 := get_dm_id_by_user (JStr "U1") w in
  let r2 := get_dm_id_by_user (JStr "U1") (snd r1) in
  dm_memo w !! KStr "U1" = None
  ∧ https (outside w) = [Ok (dm_opened "D1")]
  ∧ fst r1 = Ret (JStr "D1") ∧ fst r2 = Ret (JStr "D1")
  ∧ length (filter (λ e, is_http e = true) (trace (snd r2)))
    = S (length (filter (λ e, is_http e = true) (trace w)))
  ∧ https (outside (snd r2)) = []
  ∧ dm_memo (run no_base plain plain dotted
               [Connect; Read; Say (JStr "hi") (JStr "alice"); DoPing]
               (snd r2)) !! KStr "U1" = Some (JStr "D1").
Proof.
  cbn zeta. do 2 (split; [by vm_compute|]).
  pose proof (get_dm_id_by_user_once no_base plain plain dotted (JStr "U1")
    (KStr "U1") (fields_of (dm_opened "D1")) (JBool true)
    [("id", JStr "D1")] (JStr "D1") []
    (online (dm_then_write "D1" (Ok ())))
    eq_refl ltac:(by vm_compute) ltac:(by vm_compute) eq_refl eq_refl eq_refl
    eq_refl ltac:(discriminate)) as (H1 & H2 & H3 & H4 & H5).
  split; [exact H1|]. split; [exact H2|]. split.
  { rewrite H3. by vm_compute. }
  split; [exact H4|]. apply H5.
Defined.

Lemma do_ping_outcome_witness :
  let w := online (ticking (Ok ())) in
  ws w = Some 1%nat
  ∧ fst (do_ping w) = Ret ()
  ∧ trace (snd (do_ping w))
    = trace w ++ [WsSend (JObj [("id", JNum 1); ("type", JStr "ping");
                                ("time", JNum 1469743355000)]);
                  CallLater 4 "start_ping"]
  ∧ _internal_pingid (snd (do_ping w)) = 1
  ∧ _internal_msgid (snd (do_ping w)) = 0.
Proof.
  cbn zeta. split; [by vm_compute|].
  pose proof (do_ping_outcome (online (ticking (Ok ()))) 1%nat 1469743355 []
    (Ok ()) [] ltac:(by vm_compute) ltac:(by vm_compute) ltac:(by vm_compute))
    as (H1 & H2 & (H3 & H4) & _).
  split; [exact H3|]. split; [exact H4|].
  split; [rewrite H1|rewrite H2]; by vm_compute.
Defined.

(** C9 fails as stated: when the write raises, [do_ping] raises after the
    attempt and arms no timer. *)
Lemma do_ping_failed_send_arms_no_timer :
  let w := online (ticking (Fail ConnectionClosed)) in
  fst (do_ping w) = Raise ConnectionClosed
  ∧ frames (trace (snd (do_ping w)))
    = [JObj [("id", JNum 1); ("type", JStr "ping");
             ("time", JNum 1469743355000)]]
  ∧ existsb is_timer (trace (snd (do_ping w))) = false.
Proof. by vm_compute. Qed.

Lemma read_reconnects_until_connected_witness :
  let w := online back_after_two in
  let r := read base_with_error plain plain dotted w in
  (base_with_error "error" = true
   ∧ ws w = Some 1%nat
   ∧ recvs (outside w) = [Fail ConnectionClosed]
   ∧ after_failures plain 2 (closed w) = Some twice_failed)
  ∧ (fst r = Ret JNull
     ∧ ws (snd r) = Some 2%nat
     ∧ pauses (trace (snd r)) = [300; 300])
  ∧ (pauses (trace twice_failed) = pauses (trace w) ++ replicate 2 300
     ∧ match connect plain twice_failed with
       | (Ret r, w') =>
           truthy r = true →
           read base_with_error plain plain dotted w = (Ret JNull, w')
           ∧ is_Some (ws w')
           ∧ pauses (trace w') = pauses (trace w) ++ replicate 2 300
       | (Raise e, w') =>
           read base_with_error plain plain dotted w = (Raise e, w')
       | (Pending, w') =>
           read base_with_error plain plain dotted w = (Pending, w')
       end)
  ∧ (no_base "error" = false
     ∧ fst (connect plain (closed w)) = Ret JNull
     ∧ fst (read no_base plain plain dotted w) = Raise (AttributeError "error")
     ∧ pauses (trace (snd (read no_base plain plain dotted w))) = []
     ∧ match connect plain (closed w) with
       | (Ret r, w') =>
           read no_base plain plain dotted w
           = (if truthy r then Ret JNull else Raise (AttributeError "error"),
              w')
           ∧ pauses (trace w') = pauses (trace w)
       | (Raise e, w') => read no_base plain plain dotted w = (Raise e, w')
       | (Pending, w') => read no_base plain plain dotted w = (Pending, w')
       end).
Proof.
  cbn zeta. split; [|split; [|split]].
  - do 3 (split; [vm_compute; reflexivity|]). vm_compute; reflexivity.
  - do 2 (split; [vm_compute; reflexivity|]). vm_compute; reflexivity.
  - exact (proj1 (read_reconnects_until_connected base_with_error plain plain
                    dotted (online back_after_two) 1%nat []
                    ltac:(vm_compute; reflexivity)
                    ltac:(vm_compute; reflexivity))
             ltac:(vm_compute; reflexivity) 2%nat twice_failed
             ltac:(vm_compute; reflexivity)).
  - do 4 (split; [vm_compute; reflexivity|]).
    exact (proj2 (read_reconnects_until_connected no_base plain plain
                    dotted (online back_after_two) 1%nat []
                    ltac:(vm_compute; reflexivity)
                    ltac:(vm_compute; reflexivity))
             ltac:(vm_compute; reflexivity)).
Defined.

(** C5 fails as stated: the session-start exchange succeeds, the opening
    of the streaming session raises, and [read] leaves the loop by that
    exception: no pause, no second attempt, the old handle still in
    place, whether the base class provides [error] or not. *)
Lemma read_raises_when_open_fails :
  let w := online endpoint_down in
  let r := read base_with_error plain plain dotted w in
  ws w = Some 1%nat
  ∧ fst (connect plain (closed w)) = Raise (ExternalError "OSError")
  ∧ fst r = Raise (ExternalError "OSError")
  ∧ ws (snd r) = Some 1%nat
  ∧ pauses (trace (snd r)) = []
  ∧ length (filter (λ e, is_http e = true) (trace (snd r)))
    = S (length (filter (λ e, is_http e = true) (trace w)))
  ∧ read no_base plain plain dotted w = r.
Proof. by vm_compute. Qed.
(** ** The caches over a process lifetime *)

#[global] Instance caches_grow_preorder : PreOrder caches_grow.
Proof.
  split.
  - intros w. by repeat split.
  - intros w1 w2 w3 (? & ? & ? & ?) (? & ? & ? & ?).
    repeat split; by etrans.
Qed.

#[global] Instance same_channels_preorder : PreOrder same_channels.
Proof.
  split; [by intros ?|]. intros w1 w2 w3 [? ?] [? ?].
  unfold same_channels in *. split; congruence.
Qed.

#[global] Instance same_users_preorder : PreOrder same_users.
Proof.
  split; [by intros ?|]. intros w1 w2 w3 [? ?] [? ?].
  unfold same_users in *. split; congruence.
Qed.

#[global] Instance unconnected_preorder : PreOrder unconnected.
Proof.
  split; [by intros ?|]. intros w1 w2 w3 (? & ? & ? & ?) (? & ? & ? & ?).
  unfold unconnected in *. repeat split; congruence.
Qed.

#[global] Instance same_identity_preorder : PreOrder same_identity.
Proof.
  split; [by intros ?|]. intros w1 w2 w3 [? ?] [? ?].
  unfold same_identity in *. split; congruence.
Qed.

Ltac grow_leaf :=
  unfold caches_grow; cbn; repeat split;
  first [done | apply dom_insert_subseteq].

Lemma on_user_change_grow msg : preserves caches_grow (on_user_change msg).
Proof.
  intros w. pose proof (on_user_change_keeps_index msg w) as Hidx.
  assert (preserves (λ w w', dom (user_map w) ⊆ dom (user_map w')
                             ∧ dom (channel_map w) ⊆ dom (channel_map w')
                             ∧ dom (channel_name_to_id w)
                               ⊆ dom (channel_name_to_id w'))
            (on_user_change msg)) as H.
  { assert (PreOrder (λ w w' : world,
              dom (user_map w) ⊆ dom (user_map w')
              ∧ dom (channel_map w) ⊆ dom (channel_map w')
              ∧ dom (channel_name_to_id w) ⊆ dom (channel_name_to_id w'))).
    { split; [by intros ?|].
      intros ??? (? & ? & ?) (? & ? & ?). repeat split; by etrans. }
    unfold on_user_change, del_user_nick.
    frame ltac:(cbn; repeat split; first [done | apply dom_insert_subseteq]). }
  destruct (H w) as (? & ? & ?). repeat split; try done. by rewrite Hidx.
Qed.

Lemma process_connect_info_grow info :
  preserves caches_grow (process_connect_info info).
Proof. unfold process_connect_info. frame grow_leaf. Qed.

Lemma get_dm_id_by_user_grow user_id :
  preserves caches_grow (get_dm_id_by_user user_id).
Proof.
  unfold get_dm_id_by_user, memoize, get_dm_id_by_user_body.
  frame_all grow_leaf.
Qed.

#[export] Hint Resolve on_user_change_grow process_connect_info_grow
  get_dm_id_by_user_grow : frame_db.

Lemma get_dm_id_by_user_same_channels user_id :
  preserves same_channels (get_dm_id_by_user user_id).
Proof.
  unfold get_dm_id_by_user, memoize, get_dm_id_by_user_body.
  frame_all ltac:(done).
Qed.

#[export] Hint Resolve get_dm_id_by_user_same_channels : frame_db.

Section Caches.
Context (base_has : string → bool).
Context (str_container : json → string).
Context (pformat : json → string).
Context (str_float : Z → string).

Lemma reconnect_loop_grow fuel :
  preserves caches_grow (reconnect_loop base_has str_container fuel).
Proof.
  induction fuel as [|fuel IH]; simpl; [by intros w|].
  frame_all grow_leaf.
Qed.

Lemma reconnect_grow : preserves caches_grow (reconnect base_has str_container).
Proof. intros w. apply reconnect_loop_grow. Qed.

Lemma own_attrs_grow msg :
  Forall (λ p, preserves caches_grow (p.2 msg)) own_attrs.
Proof.
  unfold own_attrs.
  repeat (apply Forall_cons_2;
          [cbn [snd]; first [apply on_user_change_grow | frame_all grow_leaf]|]).
  apply Forall_nil_2.
Qed.

Lemma perform_grow c :
  preserves caches_grow (perform base_has str_container pformat str_float c).
Proof.
  pose proof reconnect_grow.
  assert (∀ name h msg, own_attr name = Some h → preserves caches_grow (h msg)).
  { intros name h msg. apply (assoc_Forall (λ h, preserves caches_grow (h msg))).
    apply own_attrs_grow. }
  destruct c; simpl; frame_all grow_leaf.
Qed.

(** X2: over any sequence of calls no cache forgets a key: the user ids,
    the user names, the channel ids and the channel names that the four
    caches hold at the start are still held at the end. *)
Theorem caches_never_forget cs w :
  dom (user_map w) ⊆ dom (user_map (run base_has str_container pformat str_float cs w))
  ∧ dom (user_nick_to_id w)
    ⊆ dom (user_nick_to_id (run base_has str_container pformat str_float cs w))
  ∧ dom (channel_map w)
    ⊆ dom (channel_map (run base_has str_container pformat str_float cs w))
  ∧ dom (channel_name_to_id w)
    ⊆ dom (channel_name_to_id (run base_has str_container pformat str_float cs w)).
Proof.
  exact (run_preserves base_has str_container pformat str_float caches_grow cs
           perform_grow w).
Qed.

Lemma own_attrs_same_channels msg :
  Forall (λ p, preserves same_channels (p.2 msg)) own_attrs.
Proof.
  unfold own_attrs.
  repeat (apply Forall_cons_2; [cbn [snd]; frame_all ltac:(done)|]).
  apply Forall_nil_2.
Qed.

(** X3: only a session-start payload writes the channel caches: the
    routing of an inbound event (whatever its handler), [say], the
    heartbeat and the DM resolver leave [channel_map] and
    [channel_name_to_id] as they were, so a channel joined after the
    bootstrap is never cached. *)
Theorem events_leave_channel_caches c w :
  bootstraps c = false →
  channel_map (snd (perform base_has str_container pformat str_float c w))
  = channel_map w
  ∧ channel_name_to_id (snd (perform base_has str_container pformat str_float c w))
    = channel_name_to_id w.
Proof.
  assert (∀ name h msg, own_attr name = Some h → preserves same_channels (h msg)).
  { intros name h msg. apply (assoc_Forall (λ h, preserves same_channels (h msg))).
    apply own_attrs_same_channels. }
  intros Hc.
  assert (preserves same_channels (perform base_has str_container pformat str_float c))
    as Hp; [|exact (Hp w)].
  destruct c; try done; simpl; frame_all ltac:(done).
Qed.

End Caches.
(** ** The ping counter *)

Lemma ping_ids_app t1 t2 : ping_ids (t1 ++ t2) = ping_ids t1 ++ ping_ids t2.
Proof. apply omap_app. Qed.

#[global] Instance pings_advance_preorder : PreOrder pings_advance.
Proof.
  split.
  - intros w. exists []. rewrite app_nil_r. repeat split; [lia|constructor..].
  - intros w1 w2 w3 (t1 & Ht1 & Hle1 & Hs1 & Hb1) (t2 & Ht2 & Hle2 & Hs2 & Hb2).
    exists (t1 ++ t2). rewrite Ht2, Ht1, app_assoc, ping_ids_app.
    repeat split; [lia| |].
    + apply StronglySorted_app_2; [|done..].
      intros x1 x2 Hx1 Hx2.
      rewrite Forall_forall in Hb1, Hb2.
      apply Hb1 in Hx1. apply Hb2 in Hx2. lia.
    + apply Forall_app. split.
      * eapply Forall_impl; [exact Hb1|]. intros i ?. simpl in *. lia.
      * eapply Forall_impl; [exact Hb2|]. intros i ?. simpl in *. lia.
Qed.

Ltac pings_leaf :=
  first
  [ exists []; split; [cbn; by rewrite app_nil_r|];
    cbn; repeat split; [lia|constructor..]
  | eexists [_]; split; [reflexivity|];
    cbn; repeat split; [lia|constructor..] ].

Lemma do_ping_pings : preserves pings_advance do_ping.
Proof.
  intros w. unfold do_ping, _send, ws_send, time_ms, ask. unfold_m. cbn.
  destruct (clock (outside w)) as [|t ?]; cbn.
  { exists []. rewrite app_nil_r. cbn. repeat split; [lia|constructor..]. }
  destruct (ws w); cbn.
  - destruct (sends (outside w)) as [|a ?]; cbn.
    + exists []. rewrite app_nil_r. cbn. repeat split; [lia|constructor..].
    + destruct a as [[]|e]; cbn.
      * eexists [_; _]. split; [by rewrite <- app_assoc|].
        cbn. repeat split; [lia|repeat constructor|repeat constructor; lia].
      * eexists [_]. split; [reflexivity|].
        cbn. repeat split; [lia|repeat constructor|repeat constructor; lia].
  - exists []. rewrite app_nil_r. cbn. repeat split; [lia|constructor..].
Qed.

Lemma process_connect_info_pings info :
  preserves pings_advance (process_connect_info info).
Proof. unfold process_connect_info. frame pings_leaf. Qed.

Lemma get_dm_id_by_user_pings user_id :
  preserves pings_advance (get_dm_id_by_user user_id).
Proof.
  unfold get_dm_id_by_user, memoize, get_dm_id_by_user_body.
  frame_all pings_leaf.
Qed.

#[export] Hint Resolve do_ping_pings process_connect_info_pings
  get_dm_id_by_user_pings : frame_db.

Section Pings.
Context (base_has : string → bool).
Context (str_container : json → string).
Context (pformat : json → string).
Context (str_float : Z → string).

Lemma reconnect_loop_pings fuel :
  preserves pings_advance (reconnect_loop base_has str_container fuel).
Proof.
  induction fuel as [|fuel IH]; simpl; [by intros w|].
  frame_all pings_leaf.
Qed.

Lemma reconnect_pings : preserves pings_advance (reconnect base_has str_container).
Proof. intros w. apply reconnect_loop_pings. Qed.

Lemma own_attrs_pings msg :
  Forall (λ p, preserves pings_advance (p.2 msg)) own_attrs.
Proof. unfold own_attrs. repeat constructor; cbn; frame_all pings_leaf. Qed.

Lemma perform_pings c :
  preserves pings_advance (perform base_has str_container pformat str_float c).
Proof.
  pose proof reconnect_pings.
  assert (∀ name h msg, own_attr name = Some h → preserves pings_advance (h msg)).
  { intros name h msg. apply (assoc_Forall (λ h, preserves pings_advance (h msg))).
    apply own_attrs_pings. }
  destruct c; simpl; frame_all pings_leaf.
Qed.

(** X1: over any sequence of calls the ping frames written carry strictly
    increasing ids, above the value the ping counter started from and not
    above its final value; and [say] never moves the ping counter. *)
Theorem ping_ids_strictly_increase :
  (∀ cs w0, ∃ t,
      trace (run base_has str_container pformat str_float cs w0) = trace w0 ++ t
      ∧ StronglySorted Z.lt (ping_ids t)
      ∧ Forall (λ i, _internal_pingid w0 < i
                     ≤ _internal_pingid (run base_has str_container pformat str_float cs w0))
          (ping_ids t))
  ∧ (∀ message destination w,
       _internal_pingid (snd (say str_container message destination w))
       = _internal_pingid w).
Proof.
  split.
  - intros cs w0.
    destruct (run_preserves base_has str_container pformat str_float pings_advance cs
                perform_pings w0) as (t & Ht & _ & Hs & Hb).
    by exists t.
  - intros message destination w.
    assert (preserves (λ w w', _internal_pingid w' = _internal_pingid w)
              (say str_container message destination)) as H; [|apply H].
    assert (PreOrder (λ w w' : world, _internal_pingid w' = _internal_pingid w)).
    { split; [by intros ?|intros ??? H1 H2; by rewrite H2]. }
    assert (∀ u, preserves (λ w w', _internal_pingid w' = _internal_pingid w)
                   (get_dm_id_by_user u)).
    { intros u. unfold get_dm_id_by_user, memoize, get_dm_id_by_user_body.
      frame_all ltac:(done). }
    frame_all ltac:(done).
Qed.

End Pings.
(** ** [connect] *)

Lemma process_connect_info_unconnected info :
  preserves unconnected (process_connect_info info).
Proof. unfold process_connect_info. frame ltac:(done). Qed.

#[export] Hint Resolve process_connect_info_unconnected : frame_db.

Section Connect.
Context (str_container : json → string).

Lemma authenticate_unconnected : preserves unconnected (authenticate str_container).
Proof.
  unfold authenticate, authenticate_with, http_get. frame ltac:(done).
Qed.

(** X4: [connect] opens the streaming session only after [authenticate] has
    returned: when [authenticate] raises, whatever the exception,
    [connect] logs it and returns [None], and the handle, the host, the
    connection state and the streaming endpoint are as they were; when it
    returns the endpoint and the endpoint opens, [connect] returns [True]
    with the endpoint as host, the new handle, and the state
    [CONNECTING]. *)
Theorem connect_outcome w :
  match authenticate str_container w with
  | (Raise e, w1) =>
      connect str_container w
      = (Ret JNull,
         set_trace (trace w1 ++ [Log ERROR "Error authenticating to slack" []]) w1)
      ∧ ws w1 = ws w ∧ host w1 = host w ∧ STATUS w1 = STATUS w
      ∧ opens (outside w1) = opens (outside w)
  | (Ret url, w1) =>
      match opens (outside w) with
      | Ok c :: rest =>
          ∃ w2, connect str_container w = (Ret (JBool true), w2)
                ∧ ws w2 = Some c ∧ host w2 = url
                ∧ STATUS w2 = Some CONNECTING
                ∧ opens (outside w2) = rest
      | Fail e :: rest =>
          ∃ w2, connect str_container w = (Raise e, w2)
                ∧ ws w2 = ws w ∧ host w2 = url
                ∧ STATUS w2 = Some CONNECTING
      | [] => fst (connect str_container w) = Pending
      end
  | (Pending, w1) => connect str_container w = (Pending, w1)
  end.
Proof.
  pose proof (authenticate_unconnected w) as (Hws & Hh & Hst & Hop).
  unfold connect, ws_connect, ask. unfold_m.
  destruct (authenticate str_container w) as [[url|e|] w1]; cbn in *.
  - rewrite Hop.
    destruct (opens (outside w)) as [|[c|e] rest] eqn:Ho; cbn; [done| |].
    + eexists. split; [reflexivity|]. cbn. by rewrite Hop.
    + eexists. split; [reflexivity|]. by cbn.
  - done.
  - done.
Qed.

End Connect.
(** ** The bootstrap: [process_connect_info] *)

Lemma bind_ret_step {A B} (m : M A) (f : A → M B) w a w1 :
  m w = (Ret a, w1) → (m ≫= f) w = f a w1.
Proof. intros H. unfold mbind, M_bind. by rewrite H. Qed.

Lemma bind_gets {A B} (g : world → A) (f : A → M B) w :
  (gets g ≫= f) w = f (g w) w.
Proof. done. Qed.

Lemma bind_mret {A B} (a : A) (f : A → M B) w : (mret a ≫= f) w = f a w.
Proof. done. Qed.

Lemma dict_get_obj o k d :
  dict_get (JObj o) k d = mret (default d (obj_get k o)).
Proof. done. Qed.

(** The loop of lines 201-203 over well-formed records with distinct ids
    and distinct names. *)
Lemma users_loop (f : nat → json → nat * json) us es w :
  (∀ n u, (f n u).2 = u) →
  Forall2 (λ u e, user_entry u = Some e) us es →
  NoDup (es.*1.*1) → NoDup (es.*2) →
  ∃ w',
    for_each (imap f us) (λ iu,
      id ← subscript iu.2 "id"; k ← hashable id;
      modify (λ w, set_in_info (<[k:=iu.1]> (in_info w))
                     (set_user_map (<[k:=iu.2]> (user_map w)) w));;
      id ← subscript iu.2 "id"; name ← subscript iu.2 "name";
      kn ← hashable name;
      modify (λ w, set_user_nick_to_id (<[kn:=id]> (user_nick_to_id w)) w)) w
    = (Ret (), w')
    ∧ (∀ j u e, us !! j = Some u → es !! j = Some e →
         user_map w' !! e.1.1 = Some u
         ∧ user_nick_to_id w' !! e.2 = Some e.1.2)
    ∧ (∀ k, k ∉ es.*1.*1 → user_map w' !! k = user_map w !! k)
    ∧ (∀ kn, kn ∉ es.*2 → user_nick_to_id w' !! kn = user_nick_to_id w !! kn)
    ∧ _info w' = _info w ∧ same_channels w w' ∧ same_identity w w'
    ∧ trace w' = trace w ∧ outside w' = outside w.
Proof.
  intros Hf HF. revert f Hf w.
  induction HF as [|u [[k i] kn] us es Hu HF IH]; intros f Hf w Hk Hn.
  - exists w. simpl. repeat split; try done.
  - cbn in Hk, Hn. apply NoDup_cons in Hk as [Hk Hks].
    apply NoDup_cons in Hn as [Hn Hns].
    set (w1 := set_user_nick_to_id (<[kn:=i]> (user_nick_to_id w))
                 (set_in_info (<[k:=(f 0%nat u).1]> (in_info w))
                    (set_user_map (<[k:=u]> (user_map w)) w))).
    destruct (IH (f ∘ S) (λ n u, Hf (S n) u) w1 Hks Hns)
      as (w' & Hloop & Hl & Hfk & Hfn & Hi & Hc & Hid & Ht & Ho).
    exists w'. split.
    { simpl. unfold user_entry in Hu.
      destruct u as [| | | | |uo]; try done.
      destruct (obj_get "id" uo) as [i'|] eqn:Ei; [|done].
      destruct (obj_get "name" uo) as [n'|] eqn:En; [|done].
      destruct (to_key i') as [k'|] eqn:Ek; [|done].
      destruct (to_key n') as [kn'|] eqn:Ekn; [|done].
      injection Hu as <- <- <-.
      erewrite bind_ret_step; [exact Hloop|].
      cbn beta. rewrite !Hf.
      unfold_m. cbn. rewrite Ei. cbn. rewrite Ek. cbn.
      rewrite En. cbn. by rewrite Ekn. }
    repeat split.
    + destruct j as [|j]; cbn in *.
      * intros. simplify_eq. cbn. rewrite Hfk by done.
        subst w1. cbn. by rewrite lookup_insert_eq.
      * intros. by eapply Hl.
    + destruct j as [|j]; cbn in *.
      * intros. simplify_eq. cbn. rewrite Hfn by done.
        subst w1. cbn. by rewrite lookup_insert_eq.
      * intros. by eapply Hl.
    + intros k' Hk'. cbn in Hk'. apply not_elem_of_cons in Hk' as [? ?].
      rewrite Hfk by done. subst w1. cbn. by rewrite lookup_insert_ne.
    + intros kn' Hk'. cbn in Hk'. apply not_elem_of_cons in Hk' as [? ?].
      rewrite Hfn by done. subst w1. cbn. by rewrite lookup_insert_ne.
    + by rewrite Hi.
    + by destruct Hc as [-> _].
    + by destruct Hc as [_ ->].
    + by destruct Hid as [-> _].
    + by destruct Hid as [_ ->].
    + by rewrite Ht.
    + by rewrite Ho.
Qed.

(** X5: after the bootstrap, every record of the [users] collection is
    found by its id and its id by its name, whatever the later loops
    do. *)
Theorem process_connect_info_seeds_users o us es w :
  _info w = JObj o →
  (obj_get "self" o = None ∨ ∃ s, obj_get "self" o = Some (JObj s)) →
  obj_get "users" o = Some (JArr us) →
  Forall2 (λ u e, user_entry u = Some e) us es →
  NoDup (es.*1.*1) → NoDup (es.*2) →
  ∀ j u e, us !! j = Some u → es !! j = Some e →
    user_map (snd (process_connect_info (JObj o) w)) !! e.1.1 = Some u
    ∧ user_nick_to_id (snd (process_connect_info (JObj o) w)) !! e.2
      = Some e.1.2.
Proof.
  intros Hi Hself Hus HF Hk Hn.
  unfold process_connect_info.
  assert (truthy (JObj o) = true) as -> by (by destruct o).
  cbn [negb].
  match goal with
  | |- context [try_except ?A ?P ?h] =>
      assert (∃ wa, try_except A P h w = (Ret (), wa)
                    ∧ _info wa = JObj o ∧ same_users w wa)
        as (wa & Ht & Hia & Hua)
  end.
  { unfold_m. cbn. rewrite Hi. cbn.
    destruct Hself as [Hs|[s Hs]]; rewrite Hs; cbn; rewrite ?Hi; cbn;
      rewrite ?Hs; cbn; (eexists; split; [reflexivity|]; by cbn). }
  erewrite bind_ret_step by exact Ht.
  rewrite bind_gets, Hia, dict_get_obj, Hus. cbn [default from_option id].
  rewrite bind_mret. cbn [iterate]. rewrite bind_mret.
  unfold enumerate.
  destruct (users_loop pair us es wa (λ _ _, eq_refl) HF Hk Hn)
    as (wb & Hloop & Hl & _ & _ & Hib & _).
  erewrite bind_ret_step by exact Hloop.
  match goal with
  | |- context [?R wb] =>
      assert (preserves same_users R) as HR
  end.
  { frame ltac:(by cbn). }
  intros j u e Hu He. specialize (HR wb). destruct HR as [-> ->].
  by eapply Hl.
Qed.

#[global] Instance same_trace_preorder : PreOrder same_trace.
Proof.
  split; [by intros ?|]. intros w1 w2 w3 ? ?.
  unfold same_trace in *. congruence.
Qed.

(** X6: the session identity after the bootstrap. With an object as
    [self] section the id and the name are taken from it, with ['000'] and
    [None] for a missing field; a missing section is logged and leaves
    both as they were; anything else as [self] section raises
    [AttributeError] before any cache is touched. The loops that follow
    log nothing and leave the identity alone, whatever their outcome. *)
Theorem process_connect_info_identity o w :
  _info w = JObj o → o ≠ [] →
  match obj_get "self" o with
  | Some (JObj s) =>
      my_id (snd (process_connect_info (JObj o) w))
      = default (JStr "000") (obj_get "id" s)
      ∧ nick (snd (process_connect_info (JObj o) w))
        = default JNull (obj_get "name" s)
      ∧ trace (snd (process_connect_info (JObj o) w)) = trace w
  | Some _ =>
      process_connect_info (JObj o) w = (Raise (AttributeError "get"), w)
  | None =>
      my_id (snd (process_connect_info (JObj o) w)) = my_id w
      ∧ nick (snd (process_connect_info (JObj o) w)) = nick w
      ∧ trace (snd (process_connect_info (JObj o) w))
        = trace w ++ [Log ERROR "Unable to read self section of connect info" []]
  end.
Proof.
  intros Hi Ho.
  unfold process_connect_info.
  assert (truthy (JObj o) = true) as -> by (by destruct o).
  cbn [negb].
  match goal with
  | |- context [(try_except ?A ?P ?h ≫= ?R) w] =>
      assert (preserves same_identity (R ())) as HR1
        by (frame ltac:(by cbn));
      assert (preserves same_trace (R ())) as HR2
        by (frame ltac:(by cbn));
      assert (∀ wa, try_except A P h w = (Ret (), wa) →
                my_id (snd ((try_except A P h ≫= R) w)) = my_id wa
                ∧ nick (snd ((try_except A P h ≫= R) w)) = nick wa
                ∧ trace (snd ((try_except A P h ≫= R) w)) = trace wa) as HR
  end.
  { intros wa Ht. erewrite bind_ret_step by exact Ht.
    destruct (HR1 wa) as [-> ->]. by rewrite (HR2 wa). }
  destruct (obj_get "self" o) as [s|] eqn:Hs.
  - destruct s as [| | | | |s].
    6:{ destruct (HR (set_nick (default JNull (obj_get "name" s))
                        (set_my_id (default (JStr "000") (obj_get "id" s)) w)))
          as (-> & -> & ->); [|done].
        unfold_m. cbn. rewrite Hi. cbn. rewrite Hs. cbn.
        rewrite Hi. cbn. rewrite Hs. cbn. reflexivity. }
    all: unfold_m; cbn; rewrite Hi; cbn; rewrite Hs; cbn; reflexivity.
  - destruct (HR (set_trace
                    (trace w ++ [Log ERROR "Unable to read self section of connect info" []])
                    w))
      as (-> & -> & ->); [|done].
    unfold_m. cbn. rewrite Hi. cbn. rewrite Hs. cbn. reflexivity.
Qed.

(** ** [process_message]: normalization and the built-in commands *)

Section Messages.
Context (str_container : json → string) (pformat : json → string).
Context (str_float : Z → string).

(** X7: a text message that is no built-in command, from a known user, is
    returned with the sender's name, the text, and as channel [None] for a
    direct message (the channel cache is not consulted) or ['#'] followed
    by the cached channel name; nothing is logged, sent or changed. *)
Theorem process_message_normalizes o t u k r n c channel w :
  obj_get "text" o = Some (JStr t) →
  startswith "!whois" t = false → startswith "!slack-lag" t = false →
  obj_get "user" o = Some u → to_key u = Some k →
  user_map w !! k = Some (JObj r) → obj_get "name" r = Some n →
  obj_get "channel" o = Some (JStr c) →
  (startswith "D" c = true ∧ channel = JNull)
  ∨ (startswith "D" c = false
     ∧ ∃ rc cn, channel_map w !! KStr c = Some (JObj rc)
                ∧ obj_get "name" rc = Some cn
                ∧ channel = JStr ("#" +:+ py_str str_container cn)) →
  process_message str_container pformat str_float (JObj o) w
  = (Ret (JObj [("sender", n); ("channel", channel); ("message", JStr t)]), w).
Proof.
  intros Ht Hw Hl Hu Hk Hr Hn Hc Hch.
  unfold process_message. unfold_m. cbn. rewrite Ht. cbn.
  rewrite Hu. cbn. rewrite Hk. cbn. rewrite Hr. cbn. rewrite Hn. cbn.
  rewrite Hc. cbn.
  destruct Hch as [[Hd ->]|(Hd & rc & cn & Hrc & Hcn & ->)]; rewrite Hd; cbn.
  - by rewrite Hw, Hl.
  - rewrite Hrc. cbn. rewrite Hcn. cbn. by rewrite Hw, Hl.
Qed.

(** X8: a message from a user the cache does not hold raises [KeyError]
    on the user id; nothing is sent and nothing changes, apart from the
    error logged when the message has no text. *)
Theorem process_message_unknown_user o u k w :
  obj_get "user" o = Some u → to_key u = Some k → user_map w !! k = None →
  process_message str_container pformat str_float (JObj o) w
  = (Raise (KeyError u),
     if bool_decide (is_Some (obj_get "text" o)) then w
     else set_trace
            (trace w ++ [Log ERROR ("key " +:+ dquote +:+ "text" +:+ dquote +:+
                                    " not found in message: {}") [JObj o]]) w).
Proof.
  intros Hu Hk Hr. unfold process_message. unfold_m. cbn.
  destruct (bool_decide (is_Some (obj_get "text" o))); cbn.
  all: rewrite Hu; cbn; rewrite Hk; cbn; by rewrite Hr.
Qed.

(** X9: a message without text never yields a normalized message: the
    error is logged and the handler raises, whatever the caches hold. *)
Theorem process_message_without_text_raises o w :
  obj_get "text" o = None →
  ∃ e, process_message str_container pformat str_float (JObj o) w
       = (Raise e,
          set_trace
            (trace w ++ [Log ERROR ("key " +:+ dquote +:+ "text" +:+ dquote +:+
                                    " not found in message: {}") [JObj o]]) w).
Proof.
  intros Ht. unfold process_message. unfold_m. cbn. rewrite Ht. cbn.
  destruct (obj_get "user" o) as [u|]; cbn; [|by eexists].
  destruct (to_key u) as [k|]; cbn; [|by eexists].
  destruct (user_map w !! k) as [r|]; cbn; [|by eexists].
  destruct r as [| | | | |r]; cbn; try by eexists.
  destruct (obj_get "name" r) as [n|]; cbn; [|by eexists].
  destruct (obj_get "channel" o) as [c|]; cbn; [|by eexists].
  destruct c as [| | |c| |]; cbn; try by eexists.
  destruct (startswith "D" c); cbn; [by eexists|].
  destruct (channel_map w !! KStr c) as [rc|]; cbn; [|by eexists].
  destruct rc as [| | | | |rc]; cbn; try by eexists.
  destruct (obj_get "name" rc) as [cn|]; cbn; by eexists.
Qed.

(** X10: the lag command is answered where it came from: in the channel
    of the message, or to the sender for a direct message, with [str()]
    of the lag (the integer [0] before the first pong, a float after it)
    followed by [ms]; the handler then returns [None]. *)
Theorem process_message_lag_reply o t u k r n c reply_to w :
  obj_get "text" o = Some (JStr t) →
  startswith "!whois" t = false → startswith "!slack-lag" t = true →
  obj_get "user" o = Some u → to_key u = Some k →
  user_map w !! k = Some (JObj r) → obj_get "name" r = Some n →
  obj_get "channel" o = Some (JStr c) →
  (startswith "D" c = true ∧ reply_to = n)
  ∨ (startswith "D" c = false
     ∧ ∃ rc cn, channel_map w !! KStr c = Some (JObj rc)
                ∧ obj_get "name" rc = Some cn
                ∧ reply_to = JStr ("#" +:+ py_str str_container cn)) →
  process_message str_container pformat str_float (JObj o) w
  = (say str_container
       (JStr (str_number str_float (lag_in_ms w) +:+ "ms")) reply_to;;
     mret JNull) w.
Proof.
  intros Ht Hw Hl Hu Hk Hr Hn Hc Hch.
  unfold process_message. unfold_m. cbn. rewrite Ht. cbn.
  rewrite Hu. cbn. rewrite Hk. cbn. rewrite Hr. cbn. rewrite Hn. cbn.
  rewrite Hc. cbn.
  destruct Hch as [[Hd ->]|(Hd & rc & cn & Hrc & Hcn & ->)]; rewrite Hd; cbn.
  - by rewrite Hw, Hl.
  - rewrite Hrc. cbn. rewrite Hcn. cbn. rewrite Hw, Hl.
    destruct (py_str str_container cn); done.
Qed.

End Messages.
(** ** The lag, channel destinations and channel members *)


Section Channels.
Context (str_container : json → string).

(** X12: a destination that starts with ['#'] is resolved through the
    channel name index alone, with its ['#'] removed: an unknown channel
    raises [KeyError] before a sequence id is taken, and a known one makes
    [say] take the next id and write the frame to the cached channel id
    without any backend call; without a session the write raises
    [AttributeError] after the id was taken. *)
Theorem say_channel_outcome message d w :
  startswith "#" d = true →
  let name := remove_char hash_mark d in
  match channel_name_to_id w !! KStr name with
  | None => say str_container message (JStr d) w = (Raise (KeyError (JStr name)), w)
  | Some c =>
      let frame := JObj [("id", JNum (_internal_msgid w + 1));
                         ("type", JStr "message"); ("channel", c);
                         ("text", JStr (py_str str_container message))] in
      let w1 := set_trace (trace w ++ [Log DEBUG "Saying {}" [frame]])
                  (set_internal_msgid (_internal_msgid w + 1) w) in
      say str_container message (JStr d) w
      = match ws w, sends (outside w) with
        | None, _ => (Raise (AttributeError "send"), w1)
        | Some _, [] => (Pending, w1)
        | Some _, a :: _ =>
            (match a with Ok _ => Ret JNull | Fail e => Raise e end,
             set_trace (trace w1 ++ [WsSend frame])
               (set_outside (pop_sends (outside w)) w1))
        end
  end.
Proof.
  intros Hs name. unfold say, say_destination, say_send, _send, ws_send, ask.
  assert (truthy (JStr d) = true) as Ht by (by destruct d).
  unfold_m. rewrite Ht. cbn. rewrite Hs. cbn. fold name. destruct (channel_name_to_id w !! KStr name) as [c|]; [|done].
  cbn. destruct (ws w); [|done]. cbn.
  destruct (sends (outside w)) as [|[[]|e] ss]; done.
Qed.

(** X13: [get_users_by_channel] asks the backend only for an id that
    starts with [G] or [C]: for any other cached id it returns [None]
    and nothing is requested, logged or changed. *)
Theorem get_users_by_channel_other_prefix d c w :
  channel_name_to_id w !! KStr (remove_char hash_mark d) = Some (JStr c) →
  startswith "G" c = false → startswith "C" c = false →
  get_users_by_channel (JStr d) w = (Ret JNull, w).
Proof.
  intros Hc Hg Hcc. unfold get_users_by_channel. unfold_m. cbn.
  rewrite Hc. cbn. by rewrite Hg, Hcc.
Qed.

Lemma member_names_cached ids names w w' :
  Forall2 (cached_name w) ids names → user_map w' = user_map w →
  member_names ids w' = (Ret names, w').
Proof.
  intros H Hum.
  induction H as [|u_id name ids names (k & r & Hk & Hr & Hn) _ IH]; [done|].
  cbn [member_names]. unfold_m. cbn. rewrite Hk. cbn. rewrite Hum, Hr. cbn.
  rewrite Hn. cbn. by rewrite IH.
Qed.

(** X14: for a channel (id starting with [C]) whose members the user
    cache holds, one request is made to [channels.info] with the token and
    the channel id, and the cached names of the members are returned in
    the order of the answer. *)
Theorem get_users_by_channel_names d c r info ids names rest w :
  channel_name_to_id w !! KStr (remove_char hash_mark d) = Some (JStr c) →
  startswith "G" c = false → startswith "C" c = true →
  https (outside w) = Ok (JObj r) :: rest →
  obj_get "channel" r = Some (JObj info) →
  obj_get "members" info = Some (JArr ids) →
  Forall2 (cached_name w) ids names →
  get_users_by_channel (JStr d) w
  = (Ret (JArr names),
     set_trace
       (trace w ++
        [Log DEBUG "Gathering list of users for channel {} from: {}"
           [JStr c; JStr "https://slack.com/api/channels.info"; JStr (token w)];
         HttpGet "https://slack.com/api/channels.info"
           [("token", JStr (token w)); ("channel", JStr c)]])
       (set_outside (pop_https (outside w)) w)).
Proof.
  intros Hc Hg Hcc Hh Hr Hm Hn.
  unfold get_users_by_channel, http_get, ask. unfold_m. cbn.
  rewrite Hc. cbn. rewrite Hg, Hcc. cbn. rewrite Hh. cbn. rewrite Hr. cbn.
  rewrite Hm. cbn. rewrite <- app_assoc. cbn.
  by erewrite member_names_cached by (exact Hn || done).
Qed.

End Channels.
(** ** Receiving: failures of the transport and the event handlers *)

#[global] Instance no_traffic_preorder : PreOrder no_traffic.
Proof.
  split; [by intros ?|].
  intros w1 w2 w3 (? & ? & ? & ? & ?) (? & ? & ? & ? & ?).
  unfold no_traffic in *. repeat split; congruence.
Qed.

Ltac traffic_leaf :=
  unfold no_traffic; cbn; rewrite ?frames_app, ?app_nil_r; done.

Section Receiving.
Context (base_has : string → bool).
Context (str_container : json → string).
Context (pformat : json → string).
Context (str_float : Z → string).

(** X15: only a closure starts the reconnect loop. Any other failure of
    the receive leaves [read] as it was raised, with no attempt to
    connect: the receive is the only thing that happened. *)
Theorem read_receive_error_propagates h e rest w :
  ws w = Some h → recvs (outside w) = Fail e :: rest →
  is_ConnectionClosed e = false →
  read base_has str_container pformat str_float w
  = (Raise e, set_trace (trace w ++ [WsRecv])
                (set_outside (pop_recvs (outside w)) w)).
Proof.
  intros Hws Hr He. unfold read, ws_recv, ask, try_except. unfold_m.
  rewrite Hws. cbn. rewrite Hr. cbn. by rewrite He.
Qed.

Lemma own_attrs_no_traffic msg :
  Forall (λ p, preserves no_traffic (p.2 msg)) own_attrs.
Proof.
  unfold own_attrs.
  repeat (apply Forall_cons_2; [cbn [snd]; frame_all traffic_leaf|]).
  apply Forall_nil_2.
Qed.

(** X16: no handler of an event exchanges anything with the outside
    but a reading of the clock: whatever the name looked up and whatever
    the event, no frame is written, no backend call is made, no session is
    opened and nothing is received. *)
Theorem handlers_make_no_traffic name msg w :
  no_traffic w (snd (call_attr base_has name msg w)).
Proof.
  revert w. change (preserves no_traffic (call_attr base_has name msg)).
  unfold call_attr, own_attr.
  destruct (assoc name own_attrs) as [handler|] eqn:Hh.
  - revert Hh.
    apply (assoc_Forall (λ h, preserves no_traffic (h msg))).
    apply own_attrs_no_traffic.
  - frame_all traffic_leaf.
Qed.

End Receiving.

(** * The further theorems at sample sessions *)

Lemma events_leave_channel_caches_witness :
  bootstraps DoPing = false
  ∧ channel_map (snd (perform no_base plain plain dotted DoPing
                        (online (ticking (Ok ())))))
    = channel_map (online (ticking (Ok ())))
  ∧ channel_name_to_id (snd (perform no_base plain plain dotted DoPing
                               (online (ticking (Ok ())))))
    = channel_name_to_id (online (ticking (Ok ()))).
Proof.
  split; [reflexivity|].
  exact (events_leave_channel_caches no_base plain plain dotted DoPing
           (online (ticking (Ok ()))) eq_refl).
Defined.

Lemma process_connect_info_seeds_users_witness :
  user_entry alice = Some (KStr "U1", JStr "U1", KStr "alice")
  ∧ user_map (snd (process_connect_info (JObj (fields_of session))
                     (fetched session))) !! KStr "U1" = Some alice
  ∧ user_nick_to_id (snd (process_connect_info (JObj (fields_of session))
                            (fetched session))) !! KStr "alice"
    = Some (JStr "U1").
Proof.
  split; [reflexivity|].
  pose proof (process_connect_info_seeds_users (fields_of session)
    [alice; hubbot; buildbot]
    [(KStr "U1", JStr "U1", KStr "alice");
     (KStr "U2", JStr "U2", KStr "hub#bot");
     (KStr "U3", JStr "U3", KStr "buildbot")]
    (fetched session) eq_refl
    (or_intror (ex_intro _ [("id", JStr "U0"); ("name", JStr "warmachine")]
                  eq_refl))
    eq_refl
    ltac:(repeat (constructor; [reflexivity|]); constructor)
    ltac:(apply (bool_decide_unpack _); vm_compute; reflexivity)
    ltac:(apply (bool_decide_unpack _); vm_compute; reflexivity)
    0%nat alice (KStr "U1", JStr "U1", KStr "alice") eq_refl eq_refl)
    as [H1 H2].
  split; [exact H1|exact H2].
Defined.

Lemma process_connect_info_identity_witness :
  my_id (snd (process_connect_info (JObj (fields_of session))
                (fetched session))) = JStr "U0"
  ∧ nick (snd (process_connect_info (JObj (fields_of session))
                 (fetched session))) = JStr "warmachine"
  ∧ my_id (snd (process_connect_info (JObj (fields_of anonymous))
                  (fetched anonymous))) = JStr "000"
  ∧ trace (snd (process_connect_info (JObj (fields_of anonymous))
                  (fetched anonymous)))
    = [Log ERROR "Unable to read self section of connect info" []].
Proof.
  pose proof (process_connect_info_identity (fields_of session)
    (fetched session) eq_refl ltac:(discriminate)) as H.
  assert (obj_get "self" (fields_of session)
          = Some (JObj [("id", JStr "U0"); ("name", JStr "warmachine")]))
    as Hs by reflexivity.
  rewrite Hs in H. destruct H as (H1 & H2 & _).
  pose proof (process_connect_info_identity (fields_of anonymous)
    (fetched anonymous) eq_refl ltac:(discriminate)) as H'.
  assert (obj_get "self" (fields_of anonymous) = None) as Hn by reflexivity.
  rewrite Hn in H'. destruct H' as (H3 & _ & H4).
  split; [rewrite H1; reflexivity|]. split; [rewrite H2; reflexivity|].
  split; [rewrite H3; reflexivity|]. rewrite H4. reflexivity.
Defined.

Lemma process_message_normalizes_witness :
  process_message plain plain dotted (JObj (fields_of hello_general)) (online quiet)
  = (Ret (JObj [("sender", JStr "alice"); ("channel", JStr "#general");
                ("message", JStr "hello")]),
     online quiet).
Proof.
  apply (process_message_normalizes plain plain dotted (fields_of hello_general)
    "hello" (JStr "U1") (KStr "U1") (fields_of alice) (JStr "alice") "C1"
    (JStr "#general") (online quiet)
    eq_refl eq_refl eq_refl eq_refl eq_refl
    ltac:(vm_compute; reflexivity) eq_refl eq_refl).
  right. split; [reflexivity|].
  exists (fields_of general), (JStr "general").
  split; [vm_compute; reflexivity|]. split; reflexivity.
Defined.

Lemma process_message_unknown_user_witness :
  user_map (online quiet) !! KStr "U9" = None
  ∧ process_message plain plain dotted (JObj (fields_of hello_stranger)) (online quiet)
    = (Raise (KeyError (JStr "U9")),
       if bool_decide (is_Some (obj_get "text" (fields_of hello_stranger)))
       then online quiet
       else set_trace
              (trace (online quiet) ++
               [Log ERROR ("key " +:+ dquote +:+ "text" +:+ dquote +:+
                           " not found in message: {}")
                  [JObj (fields_of hello_stranger)]]) (online quiet)).
Proof.
  split; [vm_compute; reflexivity|].
  exact (process_message_unknown_user plain plain dotted (fields_of hello_stranger)
           (JStr "U9") (KStr "U9") (online quiet) eq_refl eq_refl
           ltac:(vm_compute; reflexivity)).
Defined.

Lemma process_message_without_text_raises_witness :
  obj_get "text" (fields_of textless) = None
  ∧ ∃ e, process_message plain plain dotted (JObj (fields_of textless)) (online quiet)
         = (Raise e,
            set_trace
              (trace (online quiet) ++
               [Log ERROR ("key " +:+ dquote +:+ "text" +:+ dquote +:+
                           " not found in message: {}")
                  [JObj (fields_of textless)]]) (online quiet)).
Proof.
  split; [reflexivity|].
  exact (process_message_without_text_raises plain plain dotted (fields_of textless)
           (online quiet) eq_refl).
Defined.

Lemma process_message_lag_reply_witness :
  (lag_in_ms ponged = PyFloat 1000
   ∧ str_number dotted (lag_in_ms ponged) +:+ "ms" = "1000.0ms"
   ∧ str_number dotted (lag_in_ms (online quiet)) +:+ "ms" = "0ms")
  ∧ process_message plain plain dotted (JObj (fields_of lag_direct)) ponged
    = (say plain (JStr (str_number dotted (lag_in_ms ponged) +:+ "ms"))
         (JStr "alice");; mret JNull) ponged.
Proof.
  split.
  { split; [vm_compute; reflexivity|]. split; vm_compute; reflexivity. }
  apply (process_message_lag_reply plain plain dotted (fields_of lag_direct)
    "!slack-lag" (JStr "U1") (KStr "U1") (fields_of alice) (JStr "alice") "D1"
    (JStr "alice") ponged
    eq_refl eq_refl eq_refl eq_refl eq_refl
    ltac:(vm_compute; reflexivity) eq_refl eq_refl).
  left. split; reflexivity.
Defined.


Lemma say_channel_outcome_witness :
  startswith "#" "#general" = true
  ∧ fst (say plain (JStr "hi") (JStr "#general") (online writable)) = Ret JNull
  ∧ frames (trace (snd (say plain (JStr "hi") (JStr "#general")
                          (online writable))))
    = [JObj [("id", JNum 1); ("type", JStr "message");
             ("channel", JStr "C1"); ("text", JStr "hi")]].
Proof.
  split; [reflexivity|].
  pose proof (say_channel_outcome plain (JStr "hi") "#general"
                (online writable) eq_refl) as H.
  cbn zeta in H.
  assert (channel_name_to_id (online writable)
            !! KStr (remove_char hash_mark "#general") = Some (JStr "C1"))
    as Hc by (vm_compute; reflexivity).
  rewrite Hc in H. rewrite H. split; vm_compute; reflexivity.
Defined.

Lemma get_users_by_channel_other_prefix_witness :
  get_users_by_channel (JStr "#odd") odd_channel = (Ret JNull, odd_channel).
Proof.
  apply (get_users_by_channel_other_prefix "#odd" "X1" odd_channel);
    vm_compute; reflexivity.
Defined.

Lemma get_users_by_channel_names_witness :
  fst (get_users_by_channel (JStr "#general") (online channel_listed))
  = Ret (JArr [JStr "buildbot"; JStr "alice"]).
Proof.
  rewrite (get_users_by_channel_names "#general" "C1" (fields_of general_info)
    [("id", JStr "C1"); ("members", JArr [JStr "U3"; JStr "U1"])]
    [JStr "U3"; JStr "U1"] [JStr "buildbot"; JStr "alice"] []
    (online channel_listed)
    ltac:(vm_compute; reflexivity) eq_refl eq_refl
    ltac:(vm_compute; reflexivity) eq_refl eq_refl).
  - reflexivity.
  - constructor.
    { exists (KStr "U3"), (fields_of buildbot).
      split; [reflexivity|]. split; [vm_compute; reflexivity|reflexivity]. }
    constructor; [|constructor].
    exists (KStr "U1"), (fields_of alice).
    split; [reflexivity|]. split; [vm_compute; reflexivity|reflexivity].
Defined.

Lemma read_receive_error_propagates_witness :
  read no_base plain plain dotted (online garbled)
  = (Raise (ExternalError "ValueError"),
     set_trace (trace (online garbled) ++ [WsRecv])
       (set_outside (pop_recvs (outside (online garbled))) (online garbled))).
Proof.
  apply (read_receive_error_propagates no_base plain plain dotted 1%nat
           (ExternalError "ValueError") [] (online garbled));
    vm_compute; reflexivity.
Defined.
